(** * Student performance API: feature derivation and behavioural classification

    A shallow embedding of [app.py], in two number models.

    [Module B64], further down, is the code as Python runs it: [float] is
    the primitive binary64 float, so every [+], [-] and [/] rounds and may
    overflow to infinity, [/] raises [ZeroDivisionError] on a zero divisor,
    and building a [JSONResponse] raises [ValueError] on a float that is
    infinite or nan.

    The definitions before it are the same code over exact rationals ([Q]),
    the real numbers the specification speaks of: arithmetic is exact and
    [JSONResponse] never fails.  They carry the properties that rest on
    comparisons, on the tables and on the order of the steps.

    Logging calls are not modelled. *)

From Stdlib Require Import QArith Lqa ZArith Lia String Bool List Floats.
Import ListNotations.
Set Warnings "-inexact-float".
Open Scope Q_scope.

(** ** Python exceptions and the error monad *)

(** An instance of Python's [Exception]: its class name and its [str()]. *)
Record PyException : Set := mkExc {
  exc_class : string;
  exc_str : string
}.

(** What [x / 0.0] raises, with the text CPython gives it. *)
Definition ZeroDivisionError : PyException :=
  mkExc "ZeroDivisionError" "float division by zero".

Inductive result (A : Type) : Type :=
| Ok (a : A)
| Raise (e : PyException).
Arguments Ok {A} a.
Arguments Raise {A} e.

Definition bind {A B : Type} (c : result A) (k : A -> result B) : result B :=
  match c with
  | Ok a => k a
  | Raise e => Raise e
  end.

Notation "x <- c ;; k" := (bind c (fun x => k))
  (at level 61, c at next level, right associativity).

(** ** Float operations *)

Module Float.

Definition ltb (x y : Q) : bool := negb (Qle_bool y x).
Definition gtb (x y : Q) : bool := ltb y x.
Definition eqb (x y : Q) : bool := Qeq_bool x y.

(** [x / y] on floats. *)
Definition div (x y : Q) : result Q :=
  if eqb y 0 then Raise ZeroDivisionError else Ok (x / y).

End Float.

Infix "<?" := Float.ltb (at level 70, no associativity) : Q_scope.
Infix ">?" := Float.gtb (at level 70, no associativity) : Q_scope.
Infix "=?" := Float.eqb (at level 70, no associativity) : Q_scope.
Infix "//" := Float.div (at level 40, left associativity) : Q_scope.

(** ** The request model [UserInput] *)

Record UserInput : Set := mkUserInput {
  hint_count : Q;
  bottom_hint : Q;
  attempt_count : Q;
  ms_first_response : Q;
  duration : Q;
  avg_conf_frustrated : Q;
  avg_conf_confused : Q;
  avg_conf_concentrating : Q;
  avg_conf_bored : Q
}.

(** The [Field] constraints: [ge=0] on every field, [le=1] on the four
    confidence fields. *)
Definition ge (bound x : Q) : bool := Qle_bool bound x.
Definition le (bound x : Q) : bool := Qle_bool x bound.

Definition validate (d : UserInput) : bool :=
  ge 0 (hint_count d) &&
  ge 0 (bottom_hint d) &&
  ge 0 (attempt_count d) &&
  ge 0 (ms_first_response d) &&
  ge 0 (duration d) &&
  (ge 0 (avg_conf_frustrated d) && le 1 (avg_conf_frustrated d)) &&
  (ge 0 (avg_conf_confused d) && le 1 (avg_conf_confused d)) &&
  (ge 0 (avg_conf_concentrating d) && le 1 (avg_conf_concentrating d)) &&
  (ge 0 (avg_conf_bored d) && le 1 (avg_conf_bored d)).

Definition valid (d : UserInput) : Prop := validate d = true.

(** *** Computed fields *)

Definition action_count (self : UserInput) : Q :=
  attempt_count self + hint_count self.

Definition action_level (self : UserInput) : Z :=
  if action_count self =? 0 then 0%Z
  else if action_count self =? 1 then 1%Z
  else 2%Z.

Definition hint_dependency (self : UserInput) : result Q :=
  hint_count self // (attempt_count self + 1).

Definition response_speed (self : UserInput) : result Q :=
  1 // (ms_first_response self + 1).

Definition confidence_balance (self : UserInput) : Q :=
  avg_conf_concentrating self - avg_conf_frustrated self - avg_conf_confused self.

Definition engagement_ratio (self : UserInput) : result Q :=
  avg_conf_concentrating self // (avg_conf_bored self + 1e-6).

Definition efficiency_indicator (self : UserInput) : result Q :=
  action_count self // (attempt_count self + 1).

(** ** Performance categorisation *)

Definition categorize_student_performance (correctness_score : Q)
  : Z * string * string * string :=
  if correctness_score <? 0.3 then
    (0%Z, "Poor", "Needs immediate intervention and support", "🆘")%string
  else if correctness_score <? 0.45 then
    (1%Z, "Weak", "Requires additional practice and guidance", "⚠️")%string
  else if correctness_score <? 0.6 then
    (2%Z, "Below Average", "Shows potential but needs improvement", "📈")%string
  else if correctness_score <? 0.75 then
    (3%Z, "Average", "Solid understanding with room to grow", "✅")%string
  else if correctness_score <? 0.9 then
    (4%Z, "Strong", "Excellent performance and comprehension", "🌟")%string
  else
    (5%Z, "Outstanding", "Exceptional mastery of the material", "🏆")%string.

(** [d.get(key, default)] on a dict literal with integer keys. *)
Fixpoint dict_get (d : list (Z * string)) (key : Z) (default : string) : string :=
  match d with
  | [] => default
  | (k, v) :: rest => if Z.eqb k key then v else dict_get rest key default
  end.

Definition recommend_learning_material (category_number : Z) : string :=
  let recommendations := [
    (0%Z, "🔹 Basics tutorial video + guided beginner-level exercises.");
    (1%Z, "🔸 Visual explanation content + step-by-step practice problems.");
    (2%Z, "🔹 Practice exercises with hints enabled + instant feedback.");
    (3%Z, "✅ Standard module content + end-of-lesson quiz.");
    (4%Z, "🌟 Advanced challenge problems + peer group discussion tasks.");
    (5%Z, "🏆 Project-based learning module + opportunity to mentor peers.")
  ]%string in
  dict_get recommendations category_number
    "📘 Keep learning and practicing regularly."%string.

Definition generate_feedback_message (category_number : Z) : string :=
  let feedback := [
    (0%Z, "It's okay to struggle — the key is to keep going. Let's review the basics together.");
    (1%Z, "You're making progress. Focus on the foundation, and don't hesitate to seek help.");
    (2%Z, "You've got potential. A little more consistent effort will go a long way!");
    (3%Z, "Nice work! You're on track — just refine your skills step by step.");
    (4%Z, "Great job! You've developed a solid understanding. Keep challenging yourself.");
    (5%Z, "Outstanding! You've truly mastered the topic. Consider exploring advanced material or helping peers.")
  ]%string in
  dict_get feedback category_number
    "Keep pushing forward — every step counts!"%string.

(** ** Learner profile *)

Definition generate_learner_profile (data : UserInput) : result string :=
  let duration := duration data in
  let attempt_count := attempt_count data in
  let concentrating := avg_conf_concentrating data in
  let frustrated := avg_conf_frustrated data in
  let confused := avg_conf_confused data in
  let bottom_hint := bottom_hint data in
  let confidence_balance := confidence_balance data in
  efficiency <- efficiency_indicator data ;;
  let hint_count := hint_count data in
  hint_dependency <- hint_dependency data ;;
  if (duration <? 1800) && (attempt_count <? 3) && (concentrating <? 0.5)
     && (frustrated >? 0.3) then
    Ok "Fast but Careless 🐇"%string
  else if (duration >? 1800) && (hint_count <? 5) && (concentrating >? 0.6)
     && (efficiency >? 0.6) then
    Ok "Slow and Careful 🐢"%string
  else if (hint_count >? 6) && (confused >? 0.3) && (bottom_hint >? 5)
     && (confidence_balance <? 0.4) then
    Ok "Confused Learner 🤔"%string
  else if (concentrating >? 0.6) && (confidence_balance >? 0.6)
     && (hint_dependency <? 0.3) && (efficiency >? 0.6) then
    Ok "Focused Performer 🎯"%string
  else
    Ok "General Learner"%string.

(** ** Behaviour classifiers *)

Definition classify_engagement (ratio : Q) : string :=
  if ratio >? 2 then "High"
  else if ratio >? 1 then "Moderate"
  else "Low".

Definition classify_hint_dependency (dep : Q) : string :=
  if dep >? 0.7 then "High"
  else if dep >? 0.3 then "Moderate"
  else "Low".

Definition classify_efficiency (val : Q) : string :=
  if val >? 1 then "High"
  else if val >? 0.5 then "Moderate"
  else "Low".

Definition classify_response_speed (speed : Q) : string :=
  if speed >? 0.05 then "Fast"
  else if speed >? 0.01 then "Moderate"
  else "Slow".

Definition classify_confidence (balance : Q) : string :=
  if balance >? 0.2 then "Positive"
  else if balance >? -0.2 then "Neutral"
  else "Negative".

Definition classify_persistence (attempts : Q) : string :=
  if attempts >? 5 then "High"
  else if attempts >? 2 then "Moderate"
  else "Low".

Definition classify_activity (actions : Q) : string :=
  if actions =? 0 then "None"
  else if actions =? 1 then "Minimal"
  else "Active".

(** ** Endpoints *)

(** The one-row [DataFrame] handed to the model: fifteen columns. *)
Record InputRow : Set := mkInputRow {
  col_hint_count : Q;
  col_bottom_hint : Q;
  col_attempt_count : Q;
  col_ms_first_response : Q;
  col_duration : Q;
  col_avg_conf_frustrated : Q;
  col_avg_conf_confused : Q;
  col_avg_conf_concentrating : Q;
  col_avg_conf_bored : Q;
  col_action_count : Q;
  col_hint_dependency : Q;
  col_response_speed : Q;
  col_confidence_balance : Q;
  col_engagement_ratio : Q;
  col_efficiency_indicator : Q
}.

(** A loaded model: [m input_df] stands for [m.predict(input_df)[0]], which
    either yields a score or raises. *)
Definition Model : Type := InputRow -> result Q.

Record Behaviors : Set := mkBehaviors {
  engagement : string;
  tag_hint_dependency : string;
  efficiency : string;
  tag_response_speed : string;
  tag_confidence_balance : string;
  persistence : string;
  overall_activity : string
}.

Record Metrics : Set := mkMetrics {
  m_action_count : Q;
  m_hint_dependency : Q;
  m_response_speed : Q;
  m_confidence_balance : Q;
  m_engagement_ratio : Q;
  m_efficiency_indicator : Q
}.

Record Prediction : Set := mkPrediction {
  correctness_score : Q;
  category_number : Z;
  performance_category : string;
  description : string;
  emoji : string
}.

Record Recommendations : Set := mkRecommendations {
  learning_material : string;
  feedback_message : string
}.

Record PredictionResponse : Set := mkPredictionResponse {
  prediction : Prediction;
  p_learner_profile : string;
  p_behaviors : Behaviors;
  recommendations : Recommendations;
  raw_metrics : Metrics
}.

Record AnalysisResponse : Set := mkAnalysisResponse {
  learner_profile : string;
  behaviors : Behaviors;
  computed_metrics : Metrics
}.

(** What a route handler does: it returns a [JSONResponse], raises an
    [HTTPException], or lets another exception escape. *)
Inductive Handled (A : Type) : Type :=
| JSONResponse (status_code : Z) (content : A)
| HTTPException (status_code : Z) (detail : string)
| Unhandled (e : PyException).
Arguments JSONResponse {A} status_code content.
Arguments HTTPException {A} status_code detail.
Arguments Unhandled {A} e.

(** The dict literal [input_df] is built from, fields read in source order. *)
Definition input_row (data : UserInput) : result InputRow :=
  let action_count := action_count data in
  hint_dependency <- hint_dependency data ;;
  response_speed <- response_speed data ;;
  let confidence_balance := confidence_balance data in
  engagement_ratio <- engagement_ratio data ;;
  efficiency_indicator <- efficiency_indicator data ;;
  Ok (mkInputRow (hint_count data) (bottom_hint data) (attempt_count data)
        (ms_first_response data) (duration data)
        (avg_conf_frustrated data) (avg_conf_confused data)
        (avg_conf_concentrating data) (avg_conf_bored data)
        action_count hint_dependency response_speed confidence_balance
        engagement_ratio efficiency_indicator).

(** The dict literal [behaviors], written the same way in both handlers. *)
Definition behaviors_dict (data : UserInput) : result Behaviors :=
  engagement_ratio <- engagement_ratio data ;;
  hint_dependency <- hint_dependency data ;;
  efficiency_indicator <- efficiency_indicator data ;;
  response_speed <- response_speed data ;;
  Ok (mkBehaviors
        (classify_engagement engagement_ratio)
        (classify_hint_dependency hint_dependency)
        (classify_efficiency efficiency_indicator)
        (classify_response_speed response_speed)
        (classify_confidence (confidence_balance data))
        (classify_persistence (attempt_count data))
        (classify_activity (action_count data))).

(** The dict literal under ["raw_metrics"] / ["computed_metrics"]. *)
Definition metrics_dict (data : UserInput) : result Metrics :=
  let action_count := action_count data in
  hint_dependency <- hint_dependency data ;;
  response_speed <- response_speed data ;;
  let confidence_balance := confidence_balance data in
  engagement_ratio <- engagement_ratio data ;;
  efficiency_indicator <- efficiency_indicator data ;;
  Ok (mkMetrics action_count hint_dependency response_speed
        confidence_balance engagement_ratio efficiency_indicator).

(** The body of the [try] block of [/predict]. *)
Definition predict_body (model : Model) (input_df : InputRow) (data : UserInput)
  : result PredictionResponse :=
  predicted_correctness <- model input_df ;;
  let '(category_num, category_name, description, emoji) :=
    categorize_student_performance predicted_correctness in
  learner_profile <- generate_learner_profile data ;;
  behaviors <- behaviors_dict data ;;
  let recommendation := recommend_learning_material category_num in
  let feedback := generate_feedback_message category_num in
  raw_metrics <- metrics_dict data ;;
  Ok (mkPredictionResponse
        (mkPrediction predicted_correctness category_num category_name
           description emoji)
        learner_profile
        behaviors
        (mkRecommendations recommendation feedback)
        raw_metrics).

(** [POST /predict], with the global [best_model] passed in. *)
Definition predicted_correctness (best_model : option Model) (data : UserInput)
  : Handled PredictionResponse :=
  match input_row data with
  | Raise e => Unhandled e
  | Ok input_df =>
      match best_model with
      | None => HTTPException 500 "Model not loaded"
      | Some model =>
          match predict_body model input_df data with
          | Ok response => JSONResponse 200 response
          | Raise e =>
              HTTPException 500 ("Prediction failed: " ++ exc_str e)
          end
      end
  end.

(** [POST /analyze]. *)
Definition analyze_student_behavior (data : UserInput)
  : Handled AnalysisResponse :=
  match
    (learner_profile <- generate_learner_profile data ;;
     behaviors <- behaviors_dict data ;;
     computed_metrics <- metrics_dict data ;;
     Ok (mkAnalysisResponse learner_profile behaviors computed_metrics))
  with
  | Ok response => JSONResponse 200 response
  | Raise e => Unhandled e
  end.

(** [GET /health]. *)
Definition health_check (best_model : option Model) : string * bool :=
  ("healthy"%string, match best_model with Some _ => true | None => false end).

(** ** The documented behaviour, stated over the order of the rationals

    These definitions follow the prose of the specification (sections 3
    and 4); the theorems below compare them with the code above. *)

Module Spec.

(** Section 3: derived features. *)
Definition action_count (d : UserInput) : Q := attempt_count d + hint_count d.
Definition hint_dependency (d : UserInput) : Q :=
  hint_count d / (attempt_count d + 1).
Definition response_speed (d : UserInput) : Q :=
  1 / (ms_first_response d + 1).
Definition confidence_balance (d : UserInput) : Q :=
  avg_conf_concentrating d - avg_conf_frustrated d - avg_conf_confused d.
Definition engagement_ratio (d : UserInput) : Q :=
  avg_conf_concentrating d / (avg_conf_bored d + 1e-6).
Definition efficiency_indicator (d : UserInput) : Q :=
  action_count d / (attempt_count d + 1).

(** [action_level]: 0 if action_count == 0, 1 if action_count == 1, else 2. *)
Definition action_level_is (d : UserInput) (lvl : Z) : Prop :=
  (action_count d == 0 -> lvl = 0%Z) /\
  (action_count d == 1 -> lvl = 1%Z) /\
  (~ action_count d == 0 -> ~ action_count d == 1 -> lvl = 2%Z).



(** Section 4.3: the four rules. *)
Definition rule1 (d : UserInput) : Prop :=
  duration d < 1800 /\ attempt_count d < 3 /\
  avg_conf_concentrating d < 0.5 /\ 0.3 < avg_conf_frustrated d.

Definition rule2 (d : UserInput) : Prop :=
  1800 < duration d /\ hint_count d < 5 /\
  0.6 < avg_conf_concentrating d /\ 0.6 < efficiency_indicator d.

Definition rule3 (d : UserInput) : Prop :=
  6 < hint_count d /\ 0.3 < avg_conf_confused d /\
  5 < bottom_hint d /\ confidence_balance d < 0.4.

Definition rule4 (d : UserInput) : Prop :=
  0.6 < avg_conf_concentrating d /\ 0.6 < confidence_balance d /\
  hint_dependency d < 0.3 /\ 0.6 < efficiency_indicator d.

(** Section 4.4: a threshold ladder, first match from the top winning. *)
Definition ladder (x hi mid : Q) (top middle bottom tag : string) : Prop :=
  (hi < x -> tag = top) /\
  (~ hi < x -> mid < x -> tag = middle) /\
  (~ hi < x -> ~ mid < x -> tag = bottom).

(** The equality ladder of [overall_activity]. *)
Definition activity_ladder (x : Q) (tag : string) : Prop :=
  (x == 0 -> tag = "None"%string) /\
  (~ x == 0 -> x == 1 -> tag = "Minimal"%string) /\
  (~ x == 0 -> ~ x == 1 -> tag = "Active"%string).

Definition behaviors_of (d : UserInput) (b : Behaviors) : Prop :=
  ladder (engagement_ratio d) 2 1 "High" "Moderate" "Low" (engagement b) /\
  ladder (hint_dependency d) 0.7 0.3 "High" "Moderate" "Low"
    (tag_hint_dependency b) /\
  ladder (efficiency_indicator d) 1 0.5 "High" "Moderate" "Low"
    (efficiency b) /\
  ladder (response_speed d) 0.05 0.01 "Fast" "Moderate" "Slow"
    (tag_response_speed b) /\
  ladder (confidence_balance d) 0.2 (-0.2) "Positive" "Neutral" "Negative"
    (tag_confidence_balance b) /\
  ladder (attempt_count d) 5 2 "High" "Moderate" "Low" (persistence b) /\
  activity_ladder (action_count d) (overall_activity b).

Definition metrics_of (d : UserInput) : Metrics :=
  mkMetrics (action_count d) (hint_dependency d) (response_speed d)
    (confidence_balance d) (engagement_ratio d) (efficiency_indicator d).

End Spec.

(** The status code carried by the error a handler raises, if it raises an
    [HTTPException]. *)
Definition error_status {A : Type} (h : Handled A) : option Z :=
  match h with
  | HTTPException status_code _ => Some status_code
  | _ => None
  end.

Definition error_detail {A : Type} (h : Handled A) : option string :=
  match h with
  | HTTPException _ detail => Some detail
  | _ => None
  end.

(** The components of a category tuple. *)
Definition category_ordinal (c : Z * string * string * string) : Z :=
  let '(ordinal, _, _, _) := c in ordinal.

Definition category_name (c : Z * string * string * string) : string :=
  let '(_, name, _, _) := c in name.

(** ** Sample requests *)

(** The request of the documented example: rule 1 only. *)
Definition careless_request : UserInput :=
  mkUserInput 0 0 1 500 1000 0.5 0.1 0.2 0.1.

(** A request satisfying rule 1 and rule 3 at once. *)
Definition careless_confused_request : UserInput :=
  mkUserInput 7 6 1 500 1000 0.5 0.5 0.2 0.1.

(** A field below its [ge=0] bound, which validation rejects. *)
Definition rejected_request : UserInput :=
  mkUserInput 0 0 (-1) 500 1000 0.2 0.2 0.5 0.5.

(** A model whose [predict] always raises. *)
Definition broken_model : Model :=
  fun _ => Raise (mkExc "ValueError" "feature names mismatch").

(** ** Start-up *)

(** [os.getenv(key, default)] on the process environment. *)
Definition getenv (environ : string -> option string) (key default : string)
  : string :=
  match environ key with
  | Some value => value
  | None => default
  end.

Definition RuntimeError (msg : string) : PyException :=
  mkExc "RuntimeError" msg.

(** The start-up half of [lifespan].  [load path] stands for opening [path]
    and unpickling its content: it yields the pickled object ([None] is one)
    or raises.  The result is the value of the global [best_model] once
    start-up has completed. *)
Definition lifespan (environ : string -> option string)
    (load : string -> result (option Model)) : result (option Model) :=
  let model_path := getenv environ "MODEL_PATH" "student_model.pkl" in
  match load model_path with
  | Ok best_model => Ok best_model
  | Raise e => Raise (RuntimeError ("Could not load model: " ++ exc_str e))
  end.

(** The fallback texts of the two lookups. *)
Definition default_recommendation : string :=
  "📘 Keep learning and practicing regularly.".

Definition default_feedback : string :=
  "Keep pushing forward — every step counts!".

(** A request satisfying rule 2 and rule 4 at once. *)
Definition careful_focused_request : UserInput :=
  mkUserInput 0 0 3 500 2000 0 0 0.9 0.1.

(** ** The pipeline over binary64

    The same code with Python's [float] as Rocq's primitive binary64 floats:
    every [+], [-] and [/] rounds to nearest-even and overflows to
    [infinity], comparisons are those of IEEE 754 (false on [nan]), [/]
    raises [ZeroDivisionError] on a divisor equal to zero, and building a
    [JSONResponse] raises [ValueError] when a float of its content is [nan]
    or infinite, its encoder being run with [allow_nan=False]. *)

Module B64.

Local Open Scope float_scope.

(** [x > y] on floats is [y < x]. *)
Definition gtb (x y : float) : bool := y <? x.
Local Infix ">?" := gtb (at level 70, no associativity) : float_scope.

(** [x / y] on floats. *)
Definition truediv (x y : float) : result float :=
  if y =? 0 then Raise ZeroDivisionError else Ok (x / y).

Record UserInput : Set := mkUserInput {
  hint_count : float;
  bottom_hint : float;
  attempt_count : float;
  ms_first_response : float;
  duration : float;
  avg_conf_frustrated : float;
  avg_conf_confused : float;
  avg_conf_concentrating : float;
  avg_conf_bored : float
}.

(** The [Field] constraints [ge=0] and [le=1]; both reject [nan]. *)
Definition ge (bound x : float) : bool := bound <=? x.
Definition le (bound x : float) : bool := x <=? bound.

Definition validate (d : UserInput) : bool :=
  ge 0 (hint_count d) &&
  ge 0 (bottom_hint d) &&
  ge 0 (attempt_count d) &&
  ge 0 (ms_first_response d) &&
  ge 0 (duration d) &&
  (ge 0 (avg_conf_frustrated d) && le 1 (avg_conf_frustrated d)) &&
  (ge 0 (avg_conf_confused d) && le 1 (avg_conf_confused d)) &&
  (ge 0 (avg_conf_concentrating d) && le 1 (avg_conf_concentrating d)) &&
  (ge 0 (avg_conf_bored d) && le 1 (avg_conf_bored d)).

Definition valid (d : UserInput) : Prop := validate d = true.

Definition action_count (self : UserInput) : float :=
  attempt_count self + hint_count self.

Definition action_level (self : UserInput) : Z :=
  if action_count self =? 0 then 0%Z
  else if action_count self =? 1 then 1%Z
  else 2%Z.

Definition hint_dependency (self : UserInput) : result float :=
  truediv (hint_count self) (attempt_count self + 1).

Definition response_speed (self : UserInput) : result float :=
  truediv 1 (ms_first_response self + 1).

Definition confidence_balance (self : UserInput) : float :=
  avg_conf_concentrating self - avg_conf_frustrated self
  - avg_conf_confused self.

Definition engagement_ratio (self : UserInput) : result float :=
  truediv (avg_conf_concentrating self) (avg_conf_bored self + 1e-6).

Definition efficiency_indicator (self : UserInput) : result float :=
  truediv (action_count self) (attempt_count self + 1).

Definition categorize_student_performance (correctness_score : float)
  : Z * string * string * string :=
  if correctness_score <? 0.3 then
    (0%Z, "Poor", "Needs immediate intervention and support", "🆘")%string
  else if correctness_score <? 0.45 then
    (1%Z, "Weak", "Requires additional practice and guidance", "⚠️")%string
  else if correctness_score <? 0.6 then
    (2%Z, "Below Average", "Shows potential but needs improvement", "📈")%string
  else if correctness_score <? 0.75 then
    (3%Z, "Average", "Solid understanding with room to grow", "✅")%string
  else if correctness_score <? 0.9 then
    (4%Z, "Strong", "Excellent performance and comprehension", "🌟")%string
  else
    (5%Z, "Outstanding", "Exceptional mastery of the material", "🏆")%string.

Definition generate_learner_profile (data : UserInput) : result string :=
  let duration := duration data in
  let attempt_count := attempt_count data in
  let concentrating := avg_conf_concentrating data in
  let frustrated := avg_conf_frustrated data in
  let confused := avg_conf_confused data in
  let bottom_hint := bottom_hint data in
  let confidence_balance := confidence_balance data in
  efficiency <- efficiency_indicator data ;;
  let hint_count := hint_count data in
  hint_dependency <- hint_dependency data ;;
  if (duration <? 1800) && (attempt_count <? 3) && (concentrating <? 0.5)
     && (frustrated >? 0.3) then
    Ok "Fast but Careless 🐇"%string
  else if (duration >? 1800) && (hint_count <? 5) && (concentrating >? 0.6)
     && (efficiency >? 0.6) then
    Ok "Slow and Careful 🐢"%string
  else if (hint_count >? 6) && (confused >? 0.3) && (bottom_hint >? 5)
     && (confidence_balance <? 0.4) then
    Ok "Confused Learner 🤔"%string
  else if (concentrating >? 0.6) && (confidence_balance >? 0.6)
     && (hint_dependency <? 0.3) && (efficiency >? 0.6) then
    Ok "Focused Performer 🎯"%string
  else
    Ok "General Learner"%string.

Definition classify_engagement (ratio : float) : string :=
  if ratio >? 2 then "High"
  else if ratio >? 1 then "Moderate"
  else "Low".

Definition classify_hint_dependency (dep : float) : string :=
  if dep >? 0.7 then "High"
  else if dep >? 0.3 then "Moderate"
  else "Low".

Definition classify_efficiency (val : float) : string :=
  if val >? 1 then "High"
  else if val >? 0.5 then "Moderate"
  else "Low".

Definition classify_response_speed (speed : float) : string :=
  if speed >? 0.05 then "Fast"
  else if speed >? 0.01 then "Moderate"
  else "Slow".

Definition classify_confidence (balance : float) : string :=
  if balance >? 0.2 then "Positive"
  else if balance >? -0.2 then "Neutral"
  else "Negative".

Definition classify_persistence (attempts : float) : string :=
  if attempts >? 5 then "High"
  else if attempts >? 2 then "Moderate"
  else "Low".

Definition classify_activity (actions : float) : string :=
  if actions =? 0 then "None"
  else if actions =? 1 then "Minimal"
  else "Active".

Record InputRow : Set := mkInputRow {
  col_hint_count : float;
  col_bottom_hint : float;
  col_attempt_count : float;
  col_ms_first_response : float;
  col_duration : float;
  col_avg_conf_frustrated : float;
  col_avg_conf_confused : float;
  col_avg_conf_concentrating : float;
  col_avg_conf_bored : float;
  col_action_count : float;
  col_hint_dependency : float;
  col_response_speed : float;
  col_confidence_balance : float;
  col_engagement_ratio : float;
  col_efficiency_indicator : float
}.

Definition Model : Type := InputRow -> result float.

Record Metrics : Set := mkMetrics {
  m_action_count : float;
  m_hint_dependency : float;
  m_response_speed : float;
  m_confidence_balance : float;
  m_engagement_ratio : float;
  m_efficiency_indicator : float
}.

Record Prediction : Set := mkPrediction {
  correctness_score : float;
  category_number : Z;
  performance_category : string;
  description : string;
  emoji : string
}.

Record PredictionResponse : Set := mkPredictionResponse {
  prediction : Prediction;
  p_learner_profile : string;
  p_behaviors : Behaviors;
  recommendations : Recommendations;
  raw_metrics : Metrics
}.

Record AnalysisResponse : Set := mkAnalysisResponse {
  learner_profile : string;
  behaviors : Behaviors;
  computed_metrics : Metrics
}.

(** What the JSON encoder refuses under [allow_nan=False]. *)
Definition out_of_range (o : float) : bool :=
  negb (o =? o) || (o =? infinity) || (o =? neg_infinity).

(** The encoder's error; later CPython releases append the offending value
    to this text. *)
Definition JSON_ValueError : PyException :=
  mkExc "ValueError" "Out of range float values are not JSON compliant".

Definition metrics_floats (m : Metrics) : list float :=
  [m_action_count m; m_hint_dependency m; m_response_speed m;
   m_confidence_balance m; m_engagement_ratio m; m_efficiency_indicator m].

(** [JSONResponse(status_code=200, content=...)]: rendering happens in the
    constructor, over the floats the content holds. *)
Definition json_response {A : Type} (floats : list float) (content : A)
  : result A :=
  if existsb out_of_range floats then Raise JSON_ValueError else Ok content.

Definition input_row (data : UserInput) : result InputRow :=
  let action_count := action_count data in
  hint_dependency <- hint_dependency data ;;
  response_speed <- response_speed data ;;
  let confidence_balance := confidence_balance data in
  engagement_ratio <- engagement_ratio data ;;
  efficiency_indicator <- efficiency_indicator data ;;
  Ok (mkInputRow (hint_count data) (bottom_hint data) (attempt_count data)
        (ms_first_response data) (duration data)
        (avg_conf_frustrated data) (avg_conf_confused data)
        (avg_conf_concentrating data) (avg_conf_bored data)
        action_count hint_dependency response_speed confidence_balance
        engagement_ratio efficiency_indicator).

Definition behaviors_dict (data : UserInput) : result Behaviors :=
  engagement_ratio <- engagement_ratio data ;;
  hint_dependency <- hint_dependency data ;;
  efficiency_indicator <- efficiency_indicator data ;;
  response_speed <- response_speed data ;;
  Ok (mkBehaviors
        (classify_engagement engagement_ratio)
        (classify_hint_dependency hint_dependency)
        (classify_efficiency efficiency_indicator)
        (classify_response_speed response_speed)
        (classify_confidence (confidence_balance data))
        (classify_persistence (attempt_count data))
        (classify_activity (action_count data))).

Definition metrics_dict (data : UserInput) : result Metrics :=
  let action_count := action_count data in
  hint_dependency <- hint_dependency data ;;
  response_speed <- response_speed data ;;
  let confidence_balance := confidence_balance data in
  engagement_ratio <- engagement_ratio data ;;
  efficiency_indicator <- efficiency_indicator data ;;
  Ok (mkMetrics action_count hint_dependency response_speed
        confidence_balance engagement_ratio efficiency_indicator).

(** The body of the [try] block of [/predict], the response included. *)
Definition predict_body (model : Model) (input_df : InputRow)
    (data : UserInput) : result PredictionResponse :=
  predicted_correctness <- model input_df ;;
  let '(category_num, category_name, description, emoji) :=
    categorize_student_performance predicted_correctness in
  learner_profile <- generate_learner_profile data ;;
  behaviors <- behaviors_dict data ;;
  let recommendation := recommend_learning_material category_num in
  let feedback := generate_feedback_message category_num in
  raw_metrics <- metrics_dict data ;;
  json_response (predicted_correctness :: metrics_floats raw_metrics)
    (mkPredictionResponse
       (mkPrediction predicted_correctness category_num category_name
          description emoji)
       learner_profile
       behaviors
       (mkRecommendations recommendation feedback)
       raw_metrics).

Definition predicted_correctness (best_model : option Model)
    (data : UserInput) : Handled PredictionResponse :=
  match input_row data with
  | Raise e => Unhandled e
  | Ok input_df =>
      match best_model with
      | None => HTTPException 500 "Model not loaded"
      | Some model =>
          match predict_body model input_df data with
          | Ok response => JSONResponse 200 response
          | Raise e =>
              HTTPException 500 ("Prediction failed: " ++ exc_str e)
          end
      end
  end.

Definition analyze_student_behavior (data : UserInput)
  : Handled AnalysisResponse :=
  match
    (learner_profile <- generate_learner_profile data ;;
     behaviors <- behaviors_dict data ;;
     computed_metrics <- metrics_dict data ;;
     json_response (metrics_floats computed_metrics)
       (mkAnalysisResponse learner_profile behaviors computed_metrics))
  with
  | Ok response => JSONResponse 200 response
  | Raise e => Unhandled e
  end.

(** *** The documented behaviour, over the floats the code computes *)

Definition rule1 (d : UserInput) : Prop :=
  (duration d <? 1800) = true /\ (attempt_count d <? 3) = true /\
  (avg_conf_concentrating d <? 0.5) = true /\
  (0.3 <? avg_conf_frustrated d) = true.

Definition rule2 (d : UserInput) : Prop :=
  (1800 <? duration d) = true /\ (hint_count d <? 5) = true /\
  (0.6 <? avg_conf_concentrating d) = true /\
  (0.6 <? action_count d / (attempt_count d + 1)) = true.

Definition rule3 (d : UserInput) : Prop :=
  (6 <? hint_count d) = true /\ (0.3 <? avg_conf_confused d) = true /\
  (5 <? bottom_hint d) = true /\ (confidence_balance d <? 0.4) = true.

Definition rule4 (d : UserInput) : Prop :=
  (0.6 <? avg_conf_concentrating d) = true /\
  (0.6 <? confidence_balance d) = true /\
  (hint_count d / (attempt_count d + 1) <? 0.3) = true /\
  (0.6 <? action_count d / (attempt_count d + 1)) = true.

(** A threshold ladder, first match from the top winning. *)
Definition ladder (x hi mid : float) (top middle bottom tag : string)
  : Prop :=
  ((hi <? x) = true -> tag = top) /\
  ((hi <? x) = false -> (mid <? x) = true -> tag = middle) /\
  ((hi <? x) = false -> (mid <? x) = false -> tag = bottom).

Definition activity_ladder (x : float) (tag : string) : Prop :=
  ((x =? 0) = true -> tag = "None"%string) /\
  ((x =? 0) = false -> (x =? 1) = true -> tag = "Minimal"%string) /\
  ((x =? 0) = false -> (x =? 1) = false -> tag = "Active"%string).

Definition behaviors_of (d : UserInput) (b : Behaviors) : Prop :=
  ladder (avg_conf_concentrating d / (avg_conf_bored d + 1e-6)) 2 1
    "High" "Moderate" "Low" (engagement b) /\
  ladder (hint_count d / (attempt_count d + 1)) 0.7 0.3
    "High" "Moderate" "Low" (tag_hint_dependency b) /\
  ladder (action_count d / (attempt_count d + 1)) 1 0.5
    "High" "Moderate" "Low" (efficiency b) /\
  ladder (1 / (ms_first_response d + 1)) 0.05 0.01
    "Fast" "Moderate" "Slow" (tag_response_speed b) /\
  ladder (confidence_balance d) 0.2 (-0.2)
    "Positive" "Neutral" "Negative" (tag_confidence_balance b) /\
  ladder (attempt_count d) 5 2 "High" "Moderate" "Low" (persistence b) /\
  activity_ladder (action_count d) (overall_activity b).

Definition metrics_of (d : UserInput) : Metrics :=
  mkMetrics (action_count d)
    (hint_count d / (attempt_count d + 1))
    (1 / (ms_first_response d + 1))
    (confidence_balance d)
    (avg_conf_concentrating d / (avg_conf_bored d + 1e-6))
    (action_count d / (attempt_count d + 1)).

(** A float that is neither [nan] nor infinite. *)
Definition is_finite (x : float) : bool := negb (out_of_range x).

(** *** Sample requests *)

Definition careless_request : UserInput :=
  mkUserInput 0 0 1 500 1000 0.5 0.1 0.2 0.1.

Definition careless_confused_request : UserInput :=
  mkUserInput 7 6 1 500 1000 0.5 0.5 0.2 0.1.



Definition half_attempt_request : UserInput :=
  mkUserInput 0 0 0.5 500 1000 0.2 0.2 0.5 0.5.

(** A request satisfying rule 4 only. *)
Definition focused_request : UserInput :=
  mkUserInput 0 0 3 500 1000 0 0.2 0.8 0.1.

(** Counts so large that their sum overflows. *)
Definition huge_request : UserInput :=
  mkUserInput 1e308 0 1e308 500 1000 0.2 0.2 0.5 0.5.

End B64.

(** A specification float that is positive: finite with its sign bit
    clear, or +inf. *)
Definition SFpositive (x : spec_float) : Prop :=
  (exists m e, x = S754_finite false m e) \/ x = S754_infinity false.

(** * Facts about the rational operations *)

Lemma ltb_lt x y : (x <? y) = true <-> x < y.
Proof.
  unfold Float.ltb. rewrite negb_true_iff.
  split; intro H.
  - apply Qnot_le_lt. intro L. apply Qle_bool_iff in L. congruence.
  - destruct (Qle_bool y x) eqn:E; trivial.
    apply Qle_bool_iff in E. exfalso. apply (Qlt_not_le _ _ H E).
Qed.

Lemma ltb_ge x y : (x <? y) = false <-> y <= x.
Proof.
  unfold Float.ltb. rewrite negb_false_iff. apply Qle_bool_iff.
Qed.

Lemma eqb_eq x y : (x =? y) = true <-> x == y.
Proof. apply Qeq_bool_iff. Qed.

Lemma eqb_neq x y : (x =? y) = false <-> ~ x == y.
Proof.
  unfold Float.eqb. split; intro H.
  - now apply Qeq_bool_neq.
  - destruct (Qeq_bool x y) eqn:E; trivial.
    apply Qeq_bool_iff in E. contradiction.
Qed.

Lemma div_ok x y : ~ y == 0 -> x // y = Ok (x / y).
Proof.
  intro H. unfold Float.div. now rewrite (proj2 (eqb_neq y 0) H).
Qed.

Lemma div_zero x y : y == 0 -> x // y = Raise ZeroDivisionError.
Proof.
  intro H. unfold Float.div. now rewrite (proj2 (eqb_eq y 0) H).
Qed.

Lemma gtb_gt x y : (x >? y) = true <-> y < x.
Proof. apply ltb_lt. Qed.

Lemma gtb_le x y : (x >? y) = false <-> x <= y.
Proof. apply ltb_ge. Qed.

(** Turn every boolean comparison in the context and goal into a
    proposition about the order of [Q]. *)
Ltac reflect_cmp :=
  repeat match goal with
  | H : (_ <? _) = true |- _ => apply ltb_lt in H
  | H : (_ <? _) = false |- _ => apply ltb_ge in H
  | H : (_ >? _) = true |- _ => apply gtb_gt in H
  | H : (_ >? _) = false |- _ => apply gtb_le in H
  | H : (_ =? _) = true |- _ => apply eqb_eq in H
  | H : (_ =? _) = false |- _ => apply eqb_neq in H
  end.

(** * Validation *)

Lemma ge_le x lo : ge lo x = true <-> lo <= x.
Proof. apply Qle_bool_iff. Qed.

Lemma le_le x hi : le hi x = true <-> x <= hi.
Proof. apply Qle_bool_iff. Qed.

Lemma valid_bounds d :
  valid d ->
  0 <= hint_count d /\ 0 <= bottom_hint d /\ 0 <= attempt_count d /\
  0 <= ms_first_response d /\ 0 <= duration d /\
  (0 <= avg_conf_frustrated d <= 1) /\ (0 <= avg_conf_confused d <= 1) /\
  (0 <= avg_conf_concentrating d <= 1) /\ (0 <= avg_conf_bored d <= 1).
Proof.
  unfold valid, validate. intro H.
  repeat match goal with
  | H : _ && _ = true |- _ => apply andb_prop in H; destruct H
  | H : ge _ _ = true |- _ => apply ge_le in H
  | H : le _ _ = true |- _ => apply le_le in H
  end.
  repeat split; assumption.
Qed.

(** * Derived features *)

Lemma epsilon_pos : 0 < 1e-6.
Proof. reflexivity. Qed.

Lemma hint_dependency_ok d :
  0 <= attempt_count d -> hint_dependency d = Ok (Spec.hint_dependency d).
Proof.
  intro H. unfold hint_dependency, Spec.hint_dependency.
  apply div_ok. lra.
Qed.

Lemma response_speed_ok d :
  0 <= ms_first_response d -> response_speed d = Ok (Spec.response_speed d).
Proof.
  intro H. unfold response_speed, Spec.response_speed.
  apply div_ok. lra.
Qed.

Lemma efficiency_indicator_ok d :
  0 <= attempt_count d ->
  efficiency_indicator d = Ok (Spec.efficiency_indicator d).
Proof.
  intro H. unfold efficiency_indicator, Spec.efficiency_indicator.
  apply div_ok. lra.
Qed.

Lemma engagement_ratio_ok d :
  0 <= avg_conf_bored d -> engagement_ratio d = Ok (Spec.engagement_ratio d).
Proof.
  intro H. unfold engagement_ratio, Spec.engagement_ratio.
  apply div_ok. pose proof epsilon_pos. lra.
Qed.

Lemma action_level_spec d : Spec.action_level_is d (action_level d).
Proof.
  unfold Spec.action_level_is, action_level, Spec.action_count.
  fold (action_count d).
  destruct (action_count d =? 0) eqn:E0;
    destruct (action_count d =? 1) eqn:E1; reflect_cmp;
    repeat split; intros; trivial; try contradiction; lra.
Qed.

(** * Performance categories *)






(** * Outside the accepted range *)

(** Outside the accepted range the division does fail: attempt_count = -1
    makes the denominator zero. *)
Example rejected_request_divides_by_zero :
  validate rejected_request = false /\
  hint_dependency rejected_request = Raise ZeroDivisionError /\
  efficiency_indicator rejected_request = Raise ZeroDivisionError /\
  analyze_student_behavior rejected_request = Unhandled ZeroDivisionError.
Proof. repeat split; reflexivity. Qed.

(** * Learner profile *)

Lemma rule1_test d :
  (duration d <? 1800) && (attempt_count d <? 3)
  && (avg_conf_concentrating d <? 0.5) && (avg_conf_frustrated d >? 0.3) = true
  <-> Spec.rule1 d.
Proof.
  unfold Spec.rule1. rewrite !andb_true_iff, !ltb_lt, gtb_gt. tauto.
Qed.

Lemma rule2_test d :
  (duration d >? 1800) && (hint_count d <? 5)
  && (avg_conf_concentrating d >? 0.6) && (Spec.efficiency_indicator d >? 0.6)
  = true
  <-> Spec.rule2 d.
Proof.
  unfold Spec.rule2. rewrite !andb_true_iff, !ltb_lt, !gtb_gt. tauto.
Qed.

Lemma rule3_test d :
  (hint_count d >? 6) && (avg_conf_confused d >? 0.3) && (bottom_hint d >? 5)
  && (confidence_balance d <? 0.4) = true
  <-> Spec.rule3 d.
Proof.
  unfold Spec.rule3. rewrite !andb_true_iff, !ltb_lt, !gtb_gt. tauto.
Qed.

Lemma rule4_test d :
  (avg_conf_concentrating d >? 0.6) && (confidence_balance d >? 0.6)
  && (Spec.hint_dependency d <? 0.3) && (Spec.efficiency_indicator d >? 0.6)
  = true
  <-> Spec.rule4 d.
Proof.
  unfold Spec.rule4. rewrite !andb_true_iff, !ltb_lt, !gtb_gt. tauto.
Qed.

(** The decision list the classifier implements, once the two quotients it
    reads are known to be defined. *)
Lemma generate_learner_profile_cases d :
  0 <= attempt_count d ->
  exists profile : string,
    generate_learner_profile d = Ok profile /\
    (Spec.rule1 d -> profile = "Fast but Careless 🐇"%string) /\
    (~ Spec.rule1 d -> Spec.rule2 d -> profile = "Slow and Careful 🐢"%string) /\
    (~ Spec.rule1 d -> ~ Spec.rule2 d -> Spec.rule3 d ->
     profile = "Confused Learner 🤔"%string) /\
    (~ Spec.rule1 d -> ~ Spec.rule2 d -> ~ Spec.rule3 d -> Spec.rule4 d ->
     profile = "Focused Performer 🎯"%string) /\
    (~ Spec.rule1 d -> ~ Spec.rule2 d -> ~ Spec.rule3 d -> ~ Spec.rule4 d ->
     profile = "General Learner"%string).
Proof.
  intro Ha. unfold generate_learner_profile. cbv zeta.
  rewrite (efficiency_indicator_ok d Ha), (hint_dependency_ok d Ha).
  cbn [bind].
  pose proof (rule1_test d) as T1. pose proof (rule2_test d) as T2.
  pose proof (rule3_test d) as T3. pose proof (rule4_test d) as T4.
  fold (confidence_balance d) in T3, T4.
  match type of T1 with ?b = true <-> _ => destruct b end;
    [eexists; split; [reflexivity|];
     repeat split; intros; trivial; exfalso; intuition congruence|].
  match type of T2 with ?b = true <-> _ => destruct b end;
    [eexists; split; [reflexivity|];
     repeat split; intros; trivial; exfalso; intuition congruence|].
  match type of T3 with ?b = true <-> _ => destruct b end;
    [eexists; split; [reflexivity|];
     repeat split; intros; trivial; exfalso; intuition congruence|].
  match type of T4 with ?b = true <-> _ => destruct b end;
    eexists; (split; [reflexivity|]);
    repeat split; intros; trivial; exfalso; intuition congruence.
Qed.

(** * Behaviour tags *)

Lemma ladder_correct x hi mid top middle bottom :
  Spec.ladder x hi mid top middle bottom
    (if x >? hi then top else if x >? mid then middle else bottom).
Proof.
  unfold Spec.ladder.
  destruct (x >? hi) eqn:E1; destruct (x >? mid) eqn:E2; reflect_cmp;
    repeat split; intros; trivial; exfalso; lra.
Qed.

Lemma classify_activity_correct x :
  Spec.activity_ladder x (classify_activity x).
Proof.
  unfold Spec.activity_ladder, classify_activity.
  destruct (x =? 0) eqn:E0; destruct (x =? 1) eqn:E1; reflect_cmp;
    repeat split; intros; trivial; contradiction.
Qed.

Lemma behaviors_dict_ok d :
  valid d ->
  behaviors_dict d =
    Ok (mkBehaviors
          (classify_engagement (Spec.engagement_ratio d))
          (classify_hint_dependency (Spec.hint_dependency d))
          (classify_efficiency (Spec.efficiency_indicator d))
          (classify_response_speed (Spec.response_speed d))
          (classify_confidence (Spec.confidence_balance d))
          (classify_persistence (attempt_count d))
          (classify_activity (Spec.action_count d))).
Proof.
  intro V. apply valid_bounds in V.
  destruct V as (Hh & Hb & Ha & Hm & Hd & Hf & Hc & Hk & Hbo & _).
  unfold behaviors_dict.
  rewrite (engagement_ratio_ok d Hbo), (hint_dependency_ok d Ha),
    (efficiency_indicator_ok d Ha), (response_speed_ok d Hm).
  reflexivity.
Qed.

Lemma metrics_dict_ok d : valid d -> metrics_dict d = Ok (Spec.metrics_of d).
Proof.
  intro V. apply valid_bounds in V.
  destruct V as (Hh & Hb & Ha & Hm & Hd & Hf & Hc & Hk & Hbo & _).
  unfold metrics_dict. cbv zeta.
  rewrite (engagement_ratio_ok d Hbo), (hint_dependency_ok d Ha),
    (efficiency_indicator_ok d Ha), (response_speed_ok d Hm).
  reflexivity.
Qed.

Lemma input_row_ok d : valid d -> exists row, input_row d = Ok row.
Proof.
  intro V. apply valid_bounds in V.
  destruct V as (Hh & Hb & Ha & Hm & Hd & Hf & Hc & Hk & Hbo & _).
  unfold input_row. cbv zeta.
  rewrite (engagement_ratio_ok d Hbo), (hint_dependency_ok d Ha),
    (efficiency_indicator_ok d Ha), (response_speed_ok d Hm).
  eexists. reflexivity.
Qed.

Lemma behaviors_spec d :
  Spec.behaviors_of d
    (mkBehaviors
       (classify_engagement (Spec.engagement_ratio d))
       (classify_hint_dependency (Spec.hint_dependency d))
       (classify_efficiency (Spec.efficiency_indicator d))
       (classify_response_speed (Spec.response_speed d))
       (classify_confidence (Spec.confidence_balance d))
       (classify_persistence (attempt_count d))
       (classify_activity (Spec.action_count d))).
Proof.
  unfold Spec.behaviors_of; cbn [engagement tag_hint_dependency efficiency
    tag_response_speed tag_confidence_balance persistence overall_activity].
  repeat split; try apply ladder_correct; apply classify_activity_correct.
Qed.

(** * The two handlers *)

Lemma analyze_ok d :
  valid d ->
  exists profile b,
    generate_learner_profile d = Ok profile /\
    behaviors_dict d = Ok b /\
    Spec.behaviors_of d b /\
    analyze_student_behavior d =
      JSONResponse 200 (mkAnalysisResponse profile b (Spec.metrics_of d)).
Proof.
  intro V. pose proof (valid_bounds d V) as B.
  destruct (generate_learner_profile_cases d) as (p & E & _); [tauto|].
  exists p. eexists. split; [exact E|].
  split; [now apply behaviors_dict_ok|].
  split; [apply behaviors_spec|].
  unfold analyze_student_behavior.
  now rewrite E, (behaviors_dict_ok d V), (metrics_dict_ok d V).
Qed.

Lemma predict_no_model d :
  valid d ->
  predicted_correctness None d = HTTPException 500 "Model not loaded".
Proof.
  intro V. destruct (input_row_ok d V) as [row E].
  unfold predicted_correctness. now rewrite E.
Qed.

Lemma predict_model_raises d row (m : Model) e :
  input_row d = Ok row -> m row = Raise e ->
  predicted_correctness (Some m) d =
    HTTPException 500 ("Prediction failed: " ++ exc_str e).
Proof.
  intros E R. unfold predicted_correctness, predict_body.
  now rewrite E, R.
Qed.

Lemma predict_model_returns d row (m : Model) score :
  valid d -> input_row d = Ok row -> m row = Ok score ->
  exists profile b,
    generate_learner_profile d = Ok profile /\
    behaviors_dict d = Ok b /\
    Spec.behaviors_of d b /\
    predicted_correctness (Some m) d =
      JSONResponse 200
        (mkPredictionResponse
           (mkPrediction score
              (category_ordinal (categorize_student_performance score))
              (category_name (categorize_student_performance score))
              (let '(_, _, description, _) :=
                 categorize_student_performance score in description)
              (let '(_, _, _, emoji) :=
                 categorize_student_performance score in emoji))
           profile b
           (mkRecommendations
              (recommend_learning_material
                 (category_ordinal (categorize_student_performance score)))
              (generate_feedback_message
                 (category_ordinal (categorize_student_performance score))))
           (Spec.metrics_of d)).
Proof.
  intros V E R. pose proof (valid_bounds d V) as B.
  destruct (generate_learner_profile_cases d) as (p & EP & _); [tauto|].
  exists p. eexists. split; [exact EP|].
  split; [now apply behaviors_dict_ok|].
  split; [apply behaviors_spec|].
  unfold predicted_correctness, predict_body.
  rewrite E, R. cbn [bind].
  destruct (categorize_student_performance score) as [[[n name] descr] icon].
  now rewrite EP, (behaviors_dict_ok d V), (metrics_dict_ok d V).
Qed.

(** C8 (as amended): for every valid request, with no model loaded the
    prediction handler raises, before any scoring, an HTTP error of status
    500 with detail "Model not loaded".  A model that raises yields an HTTP
    error of the same status 500, and the two errors are told apart only by
    their detail text, which always differs. *)
Theorem no_model_error (d : UserInput) :
  valid d ->
  predicted_correctness None d = HTTPException 500 "Model not loaded" /\
  exists row,
    input_row d = Ok row /\
    forall (m : Model) e,
      m row = Raise e ->
      predicted_correctness (Some m) d =
        HTTPException 500 ("Prediction failed: " ++ exc_str e) /\
      error_status (predicted_correctness None d) =
        error_status (predicted_correctness (Some m) d) /\
      error_detail (predicted_correctness None d) <>
        error_detail (predicted_correctness (Some m) d).
Proof.
  intro V. split; [now apply predict_no_model|].
  destruct (input_row_ok d V) as [row E].
  exists row. split; [exact E|].
  intros m e R.
  rewrite (predict_no_model d V), (predict_model_raises d row m e E R).
  repeat split. simpl. discriminate.
Qed.

Lemma no_model_error_witness :
  valid careless_request /\
  predicted_correctness None careless_request =
    HTTPException 500 "Model not loaded".
Proof.
  assert (valid careless_request) as V by reflexivity.
  split; [exact V|].
  exact (proj1 (no_model_error careless_request V)).
Defined.

(** C8 fails as worded: on a valid request, the error raised when no model
    is loaded and the error raised when the model itself raises carry the
    same status code, 500 (not 503); they are not of distinct classes. *)
Lemma no_model_error_same_status :
  valid careless_request /\
  (forall row, broken_model row =
               Raise (mkExc "ValueError" "feature names mismatch")) /\
  predicted_correctness None careless_request =
    HTTPException 500 "Model not loaded" /\
  predicted_correctness (Some broken_model) careless_request =
    HTTPException 500 "Prediction failed: feature names mismatch" /\
  ~ (error_status (predicted_correctness None careless_request) <>
     error_status (predicted_correctness (Some broken_model) careless_request)) /\
  error_status (predicted_correctness None careless_request) <> Some 503%Z.
Proof.
  split; [reflexivity|]. split; [reflexivity|].
  split; [reflexivity|]. split; [reflexivity|].
  split; [intro H; apply H; reflexivity | vm_compute; discriminate].
Qed.

(** C9: for every valid request and every model whose [predict] raises, the
    prediction handler catches the exception and raises an HTTP error of
    status 500 whose detail is "Prediction failed: " followed by the text
    of the exception; no exception escapes the handler. *)
Theorem scorer_exception_caught (d : UserInput) :
  valid d ->
  exists row,
    input_row d = Ok row /\
    forall (m : Model) e,
      m row = Raise e ->
      predicted_correctness (Some m) d =
        HTTPException 500 ("Prediction failed: " ++ exc_str e) /\
      forall e', predicted_correctness (Some m) d <> Unhandled e'.
Proof.
  intro V. destruct (input_row_ok d V) as [row E].
  exists row. split; [exact E|].
  intros m e R.
  rewrite (predict_model_raises d row m e E R).
  split; [reflexivity | discriminate].
Qed.

Lemma scorer_exception_caught_witness :
  valid careless_request /\
  predicted_correctness (Some broken_model) careless_request =
    HTTPException 500 "Prediction failed: feature names mismatch".
Proof.
  assert (valid careless_request) as V by reflexivity.
  split; [exact V|].
  destruct (scorer_exception_caught careless_request V) as (row & _ & H).
  exact (proj1 (H broken_model _ eq_refl)).
Defined.

(** * Further properties of the pipeline *)

(** ** Arithmetic of quotients *)

Lemma div_mul x c : 0 < c -> x / c * c == x.
Proof. intro H. field. lra. Qed.

Lemma lt_div_iff t x c : 0 < c -> (t < x / c <-> t * c < x).
Proof.
  intro H. rewrite <- (Qmult_lt_r t (x / c) c H). now rewrite div_mul.
Qed.

Lemma div_lt_iff t x c : 0 < c -> (x / c < t <-> x < t * c).
Proof.
  intro H. rewrite <- (Qmult_lt_r (x / c) t c H). now rewrite div_mul.
Qed.

Lemma le_div_iff t x c : 0 < c -> (t <= x / c <-> t * c <= x).
Proof.
  intro H. rewrite <- (Qmult_le_r t (x / c) c H). now rewrite div_mul.
Qed.

Lemma div_le_iff t x c : 0 < c -> (x / c <= t <-> x <= t * c).
Proof.
  intro H. rewrite <- (Qmult_le_r (x / c) t c H). now rewrite div_mul.
Qed.

Lemma div_le_div x y c : 0 < c -> (x / c <= y / c <-> x <= y).
Proof.
  intro H. rewrite div_le_iff by exact H. now rewrite div_mul.
Qed.

Lemma div_eq_iff t x c : 0 < c -> (x / c == t <-> x == t * c).
Proof.
  intro H. split; intro E.
  - rewrite <- E. now rewrite div_mul.
  - rewrite E. field. lra.
Qed.

(** Decide which rung of a ladder was taken. *)
Ltac ladder_cases f :=
  unfold f;
  repeat match goal with
  | |- context [if ?b then _ else _] => destruct b eqn:?
  end;
  reflect_cmp.

(** Rewrite comparisons against a quotient with positive denominator [c]
    into comparisons without division. *)
Ltac clear_div c Pc :=
  repeat match goal with
  | H : _ < _ / c |- _ => apply (lt_div_iff _ _ c Pc) in H
  | H : _ / c < _ |- _ => apply (div_lt_iff _ _ c Pc) in H
  | H : _ <= _ / c |- _ => apply (le_div_iff _ _ c Pc) in H
  | H : _ / c <= _ |- _ => apply (div_le_iff _ _ c Pc) in H
  end.

Ltac tag_iffs :=
  repeat split; intros;
  try discriminate; try reflexivity;
  repeat match goal with H : _ /\ _ |- _ => destruct H end;
  try (exfalso; lra); try lra.

(** X2: for a non-negative first-response time the response_speed tag is
    "Fast" exactly below 19 ms, "Moderate" from 19 ms to below 99 ms, and
    "Slow" from 99 ms on. *)
Theorem response_speed_tag_in_ms (d : UserInput) :
  0 <= ms_first_response d ->
  exists s : Q,
    response_speed d = Ok s /\
    (classify_response_speed s = "Fast"%string <->
       ms_first_response d < 19) /\
    (classify_response_speed s = "Moderate"%string <->
       19 <= ms_first_response d /\ ms_first_response d < 99) /\
    (classify_response_speed s = "Slow"%string <->
       99 <= ms_first_response d).
Proof.
  intro Hm.
  assert (0 < ms_first_response d + 1) as Pm by lra.
  exists (Spec.response_speed d).
  split; [now apply response_speed_ok|].
  unfold Spec.response_speed.
  ladder_cases classify_response_speed;
    clear_div (ms_first_response d + 1) Pm; tag_iffs.
Qed.

Lemma response_speed_tag_in_ms_witness :
  0 <= ms_first_response careless_request /\
  exists s : Q,
    response_speed careless_request = Ok s /\
    classify_response_speed s = "Slow"%string.
Proof.
  assert (0 <= ms_first_response careless_request) as H
    by (vm_compute; discriminate).
  split; [exact H|].
  destruct (response_speed_tag_in_ms careless_request H)
    as (s & Es & _ & _ & S).
  exists s. split; [exact Es|]. apply S. vm_compute; discriminate.
Defined.

(** X4: the overall_activity tag and action_level always agree ("None" with
    0, "Minimal" with 1, "Active" with 2), and on a valid request level 0
    means no attempts and no hints. *)
Theorem activity_matches_action_level (d : UserInput) :
  (classify_activity (action_count d) = "None"%string <->
     action_level d = 0%Z) /\
  (classify_activity (action_count d) = "Minimal"%string <->
     action_level d = 1%Z) /\
  (classify_activity (action_count d) = "Active"%string <->
     action_level d = 2%Z) /\
  (valid d ->
   (action_level d = 0%Z <-> attempt_count d == 0 /\ hint_count d == 0)).
Proof.
  unfold classify_activity, action_level.
  destruct (action_count d =? 0) eqn:E0;
    destruct (action_count d =? 1) eqn:E1;
    (repeat split; intros; try discriminate; try reflexivity);
    reflect_cmp; unfold action_count in *;
    match goal with
    | V : valid d |- _ => apply valid_bounds in V
    | _ => idtac
    end;
    repeat match goal with H : _ /\ _ |- _ => destruct H end;
    try lra; exfalso; lra.
Qed.

(** X5: the tags computed for one valid request are consistent: persistence
    above "Low" or efficiency "High" forces overall_activity "Active";
    hint_dependency "High" excludes efficiency "Low"; overall_activity
    "None" forces hint_dependency, efficiency and persistence to "Low". *)
Theorem behavior_tags_consistent (d : UserInput) :
  valid d ->
  exists b : Behaviors,
    behaviors_dict d = Ok b /\
    (persistence b <> "Low"%string -> overall_activity b = "Active"%string) /\
    (efficiency b = "High"%string -> overall_activity b = "Active"%string) /\
    (tag_hint_dependency b = "High"%string -> efficiency b <> "Low"%string) /\
    (overall_activity b = "None"%string ->
     tag_hint_dependency b = "Low"%string /\ efficiency b = "Low"%string /\
     persistence b = "Low"%string).
Proof.
  intro V. pose proof (behaviors_dict_ok d V) as EB.
  apply valid_bounds in V.
  destruct V as (Hh & Hb & Ha & Hm & Hd & Hf & Hc & Hk & Hbo).
  assert (0 < attempt_count d + 1) as Pa by lra.
  eexists. split; [exact EB|].
  cbn [persistence overall_activity efficiency tag_hint_dependency].
  unfold Spec.hint_dependency, Spec.efficiency_indicator, Spec.action_count.
  unfold classify_persistence, classify_activity, classify_efficiency,
    classify_hint_dependency.
  repeat match goal with
  | |- context [if ?b then _ else _] => destruct b eqn:?
  end;
  reflect_cmp; clear_div (attempt_count d + 1) Pa;
  repeat split; intros; try discriminate; try reflexivity;
  try congruence; exfalso; lra.
Qed.

Lemma behavior_tags_consistent_witness :
  valid careless_confused_request /\
  exists b : Behaviors,
    behaviors_dict careless_confused_request = Ok b /\
    (efficiency b = "High"%string -> overall_activity b = "Active"%string).
Proof.
  assert (valid careless_confused_request) as V by reflexivity.
  split; [exact V|].
  destruct (behavior_tags_consistent careless_confused_request V)
    as (b & Eb & _ & H & _).
  exists b. split; [exact Eb | exact H].
Defined.

Lemma rules_exclusive d :
  ~ (Spec.rule1 d /\ Spec.rule2 d) /\
  ~ (Spec.rule1 d /\ Spec.rule4 d) /\
  ~ (Spec.rule2 d /\ Spec.rule3 d) /\
  ~ (Spec.rule3 d /\ Spec.rule4 d).
Proof.
  unfold Spec.rule1, Spec.rule2, Spec.rule3, Spec.rule4.
  repeat split; intro H; decompose [and] H; lra.
Qed.

(** X6: of the six pairs of profile rules, four can never hold together
    (1 with 2, 1 with 4, 2 with 3, 3 with 4); the other two pairs (1 with 3,
    2 with 4) are met by valid requests, which get the label of the
    earlier rule. *)
Theorem rule_overlaps :
  (forall d,
      ~ (Spec.rule1 d /\ Spec.rule2 d) /\
      ~ (Spec.rule1 d /\ Spec.rule4 d) /\
      ~ (Spec.rule2 d /\ Spec.rule3 d) /\
      ~ (Spec.rule3 d /\ Spec.rule4 d)) /\
  (exists d, valid d /\ Spec.rule1 d /\ Spec.rule3 d /\
             generate_learner_profile d = Ok "Fast but Careless 🐇"%string) /\
  (exists d, valid d /\ Spec.rule2 d /\ Spec.rule4 d /\
             generate_learner_profile d = Ok "Slow and Careful 🐢"%string).
Proof.
  split; [exact rules_exclusive|].
  split; [exists careless_confused_request | exists careful_focused_request];
    repeat split; reflexivity.
Qed.

(** X9: the category ordinal is monotone in the score. *)
Theorem categorize_monotone (s t : Q) :
  s <= t ->
  (category_ordinal (categorize_student_performance s) <=
   category_ordinal (categorize_student_performance t))%Z.
Proof.
  intro H. unfold categorize_student_performance.
  repeat match goal with
  | |- context [if ?b then _ else _] => destruct b eqn:?
  end;
  reflect_cmp; cbn [category_ordinal]; try lia; exfalso; lra.
Qed.

Lemma categorize_monotone_witness :
  0.44 <= 0.45 /\
  (category_ordinal (categorize_student_performance 0.44) <=
   category_ordinal (categorize_student_performance 0.45))%Z.
Proof.
  assert (0.44 <= 0.45) as H by (vm_compute; discriminate).
  split; [exact H | exact (categorize_monotone 0.44 0.45 H)].
Defined.

Lemma lookup_out_of_range k :
  ~ (0 <= k <= 5)%Z ->
  recommend_learning_material k = default_recommendation /\
  generate_feedback_message k = default_feedback.
Proof.
  intro H. unfold recommend_learning_material, generate_feedback_message.
  cbn [dict_get].
  destruct (Z.eqb_spec 0 k); [lia|]. destruct (Z.eqb_spec 1 k); [lia|].
  destruct (Z.eqb_spec 2 k); [lia|]. destruct (Z.eqb_spec 3 k); [lia|].
  destruct (Z.eqb_spec 4 k); [lia|]. destruct (Z.eqb_spec 5 k); [lia|].
  split; reflexivity.
Qed.

Lemma lookup_in_range k :
  (0 <= k <= 5)%Z ->
  recommend_learning_material k <> default_recommendation /\
  generate_feedback_message k <> default_feedback.
Proof.
  intro H.
  assert (k = 0 \/ k = 1 \/ k = 2 \/ k = 3 \/ k = 4 \/ k = 5)%Z as C by lia.
  destruct C as [->|[->|[->|[->|[->| ->]]]]]; split; vm_compute; discriminate.
Qed.

Lemma lookup_injective k k' :
  (0 <= k <= 5)%Z -> (0 <= k' <= 5)%Z ->
  recommend_learning_material k = recommend_learning_material k' \/
  generate_feedback_message k = generate_feedback_message k' ->
  k = k'.
Proof.
  intros H H'.
  assert (k = 0 \/ k = 1 \/ k = 2 \/ k = 3 \/ k = 4 \/ k = 5)%Z as C by lia.
  assert (k' = 0 \/ k' = 1 \/ k' = 2 \/ k' = 3 \/ k' = 4 \/ k' = 5)%Z
    as C' by lia.
  destruct C as [->|[->|[->|[->|[->| ->]]]]];
    destruct C' as [->|[->|[->|[->|[->| ->]]]]];
    intros [E|E]; try reflexivity; vm_compute in E; discriminate.
Qed.

(** X10: each lookup returns its default text exactly for a category number
    outside 0..5, and inside 0..5 distinct numbers get distinct
    recommendation and feedback texts. *)
Theorem lookup_tables (k : Z) :
  (recommend_learning_material k =
     "📘 Keep learning and practicing regularly."%string <->
   ~ (0 <= k <= 5)%Z) /\
  (generate_feedback_message k =
     "Keep pushing forward — every step counts!"%string <->
   ~ (0 <= k <= 5)%Z) /\
  (forall k', (0 <= k <= 5)%Z -> (0 <= k' <= 5)%Z ->
     recommend_learning_material k = recommend_learning_material k' \/
     generate_feedback_message k = generate_feedback_message k' ->
     k = k').
Proof.
  fold default_recommendation default_feedback.
  assert ((0 <= k <= 5)%Z \/ ~ (0 <= k <= 5)%Z) as [H|H] by lia.
  - pose proof (lookup_in_range k H) as [R F].
    split; [tauto|]. split; [tauto|]. intros k'. apply lookup_injective.
  - pose proof (lookup_out_of_range k H) as [R F].
    split; [tauto|]. split; [tauto|]. intros k' Hk. contradiction.
Qed.

(** X14: for a valid request, health reports model_loaded = false exactly
    when the prediction handler answers "Model not loaded"; with
    model_loaded = true that detail never appears. *)
Theorem health_matches_predict (best_model : option Model) (d : UserInput) :
  valid d ->
  fst (health_check best_model) = "healthy"%string /\
  (snd (health_check best_model) = false <->
   predicted_correctness best_model d =
     HTTPException 500 "Model not loaded") /\
  (snd (health_check best_model) = true <->
   error_detail (predicted_correctness best_model d) <>
     Some "Model not loaded"%string).
Proof.
  intro V. split; [reflexivity|].
  destruct (input_row_ok d V) as [row ER].
  destruct best_model as [m|]; cbn [health_check snd].
  - destruct (m row) as [score|e] eqn:EM.
    + destruct (predict_model_returns d row m score V ER EM)
        as (p & b & _ & _ & _ & EP).
      rewrite EP. cbn [error_detail].
      split; split; intros; try discriminate; reflexivity.
    + rewrite (predict_model_raises d row m e ER EM). cbn [error_detail].
      split; split; intros; simpl; try discriminate; reflexivity.
  - rewrite (predict_no_model d V). cbn [error_detail].
    split; split; intros; try reflexivity; congruence.
Qed.

Lemma health_matches_predict_witness :
  valid careless_request /\
  snd (health_check None) = false /\
  predicted_correctness None careless_request =
    HTTPException 500 "Model not loaded".
Proof.
  assert (valid careless_request) as V by reflexivity.
  split; [exact V|]. split; [reflexivity|].
  destruct (health_matches_predict None careless_request V) as (_ & H & _).
  apply H. reflexivity.
Defined.

(** X15: start-up reads the model from the path in MODEL_PATH, or from
    student_model.pkl when the variable is unset; a successful load sets
    best_model to the loaded object; any exception of the load is replaced
    by a RuntimeError whose text is "Could not load model: " followed by the
    text of that exception, and start-up raises nothing else. *)
Theorem lifespan_outcomes (environ : string -> option string)
    (load : string -> result (option Model)) :
  exists model_path : string,
    (environ "MODEL_PATH"%string = None ->
     model_path = "student_model.pkl"%string) /\
    (forall p, environ "MODEL_PATH"%string = Some p -> model_path = p) /\
    (forall best_model, load model_path = Ok best_model ->
       lifespan environ load = Ok best_model) /\
    (forall e, load model_path = Raise e ->
       lifespan environ load =
         Raise (mkExc "RuntimeError" ("Could not load model: " ++ exc_str e))) /\
    (forall e, lifespan environ load = Raise e ->
       exc_class e = "RuntimeError"%string).
Proof.
  exists (getenv environ "MODEL_PATH" "student_model.pkl").
  unfold lifespan.
  split; [intro E; unfold getenv; now rewrite E|].
  split; [intros p E; unfold getenv; now rewrite E|].
  destruct (load (getenv environ "MODEL_PATH" "student_model.pkl"))
    as [bm|e0].
  - split; [now intros ? [= ->]|]. split; discriminate.
  - split; [discriminate|].
    split; [now intros ? [= ->] | now intros ? [= <-]].
Qed.

(** X16: the learner profile does not depend on ms_first_response or
    avg_conf_bored, and the behaviour tags and the six metrics do not depend
    on bottom_hint or duration. *)
Theorem unread_fields (d : UserInput) (x y : Q) :
  generate_learner_profile
    (mkUserInput (hint_count d) (bottom_hint d) (attempt_count d) x
       (duration d) (avg_conf_frustrated d) (avg_conf_confused d)
       (avg_conf_concentrating d) y)
  = generate_learner_profile d /\
  behaviors_dict
    (mkUserInput (hint_count d) x (attempt_count d) (ms_first_response d)
       y (avg_conf_frustrated d) (avg_conf_confused d)
       (avg_conf_concentrating d) (avg_conf_bored d))
  = behaviors_dict d /\
  metrics_dict
    (mkUserInput (hint_count d) x (attempt_count d) (ms_first_response d)
       y (avg_conf_frustrated d) (avg_conf_confused d)
       (avg_conf_concentrating d) (avg_conf_bored d))
  = metrics_dict d.
Proof.
  destruct d. repeat split.
Qed.

(** * Binary64 facts *)

(** ** Rounding a positive value never gives zero *)

Section Shifts.

Local Open Scope Z_scope.

Lemma digits2_pos_lower (m : positive) :
  2 ^ (Zpos (digits2_pos m) - 1) <= Zpos m.
Proof.
  induction m as [m IH|m IH|]; cbn [digits2_pos].
  - rewrite Pos2Z.inj_succ.
    replace (Z.succ (Zpos (digits2_pos m)) - 1)
      with (Z.succ (Zpos (digits2_pos m) - 1)) by lia.
    rewrite Z.pow_succ_r by lia. lia.
  - rewrite Pos2Z.inj_succ.
    replace (Z.succ (Zpos (digits2_pos m)) - 1)
      with (Z.succ (Zpos (digits2_pos m) - 1)) by lia.
    rewrite Z.pow_succ_r by lia. lia.
  - simpl. lia.
Qed.

Lemma shr_1_lower (r : shr_record) (k : Z) :
  0 <= k -> 2 ^ (k + 1) <= shr_m r -> 2 ^ k <= shr_m (shr_1 r).
Proof.
  intros Hk H. destruct r as [m rb sb]. cbn [shr_m] in H.
  rewrite Z.pow_add_r in H by lia. change (2 ^ 1) with 2 in H.
  assert (0 < 2 ^ k) by (apply Z.pow_pos_nonneg; lia).
  destruct m as [|[p|p|]|p]; cbn [shr_1 shr_m]; lia.
Qed.

Lemma iter_shr_1_lower (p : positive) :
  forall (r : shr_record) (k : Z),
    0 <= k -> 2 ^ (k + Zpos p) <= shr_m r ->
    2 ^ k <= shr_m (iter_pos shr_1 p r).
Proof.
  induction p as [p IH|p IH|]; intros r k Hk H; cbn [iter_pos].
  - apply IH; trivial. apply IH; [lia|].
    apply shr_1_lower; [lia|].
    replace (k + Zpos p + Zpos p + 1) with (k + Zpos p~1) by lia. exact H.
  - apply IH; trivial. apply IH; [lia|].
    replace (k + Zpos p + Zpos p) with (k + Zpos p~0) by lia. exact H.
  - now apply shr_1_lower.
Qed.

End Shifts.

Section Rounding.

Local Open Scope Z_scope.

Let emin := SpecFloat.emin prec emax.

Lemma shr_fexp_pos (m : positive) (e : Z) (l : location) :
  emin <= e ->
  exists m' r s e',
    shr_fexp prec emax (Zpos m) e l =
      ({| shr_m := Zpos m'; shr_r := r; shr_s := s |}, e') /\
    emin <= e'.
Proof.
  intro He. unfold shr_fexp, shr. cbn [Zdigits2].
  destruct (fexp prec emax (Zpos (digits2_pos m) + e) - e) as [|p|p] eqn:En.
  - destruct l as [|[]]; cbn [shr_record_of_loc];
      do 4 eexists; (split; [reflexivity | exact He]).
  - assert (Zpos p = Zpos (digits2_pos m) - prec) as Ep.
    { unfold fexp in En. fold emin in En. lia. }
    pose proof (digits2_pos_lower m) as Hd.
    assert (2 ^ 52 <= shr_m (iter_pos shr_1 p (shr_record_of_loc (Zpos m) l)))
      as Hm.
    { apply iter_shr_1_lower; [lia|].
      replace (52 + Zpos p) with (Zpos (digits2_pos m) - 1)
        by (rewrite Ep; unfold prec; lia).
      destruct l as [|[]]; exact Hd. }
    destruct (iter_pos shr_1 p (shr_record_of_loc (Zpos m) l))
      as [[|m'|m'] r s]; cbn [shr_m] in Hm; try (exfalso; lia).
    do 4 eexists. split; [reflexivity | lia].
  - destruct l as [|[]]; cbn [shr_record_of_loc];
      do 4 eexists; (split; [reflexivity | exact He]).
Qed.

Lemma binary_round_aux_pos (m : positive) (e : Z) :
  emin <= e ->
  (exists m' e', binary_round_aux prec emax false (Zpos m) e loc_Exact =
                 S754_finite false m' e') \/
  binary_round_aux prec emax false (Zpos m) e loc_Exact =
    S754_infinity false.
Proof.
  intro He. unfold binary_round_aux.
  destruct (shr_fexp_pos m e loc_Exact He) as (m1 & r1 & s1 & e1 & E1 & He1).
  rewrite E1. cbn [shr_m].
  assert (exists m2, round_nearest_even (Zpos m1)
            (loc_of_shr_record {| shr_m := Zpos m1; shr_r := r1; shr_s := s1 |})
          = Zpos m2) as [m2 E2].
  { unfold round_nearest_even.
    destruct r1, s1; cbn [loc_of_shr_record];
      try destruct (Z.even (Zpos m1)); eexists; reflexivity. }
  rewrite E2.
  destruct (shr_fexp_pos m2 e1 loc_Exact He1) as (m3 & r3 & s3 & e3 & E3 & He3).
  rewrite E3. cbn [shr_m].
  destruct (e3 <=? emax - prec); [left; eauto | right; reflexivity].
Qed.

Lemma shl_align_emin (m : positive) (e e' : Z) :
  emin <= e -> emin <= e' -> emin <= snd (shl_align m e e').
Proof.
  intros He He'. unfold shl_align.
  destruct (e' - e); cbn [snd]; assumption.
Qed.

Lemma binary_round_pos (m : positive) (e : Z) :
  emin <= e ->
  (exists m' e', binary_round prec emax false m e = S754_finite false m' e') \/
  binary_round prec emax false m e = S754_infinity false.
Proof.
  intro He. unfold binary_round.
  pose proof (shl_align_emin m e
                (fexp prec emax (Zpos (digits2_pos m) + e)) He) as A.
  destruct (shl_align m e (fexp prec emax (Zpos (digits2_pos m) + e)))
    as [mz ez]. cbn [snd] in A.
  apply binary_round_aux_pos. apply A.
  unfold fexp. fold emin. lia.
Qed.

Lemma valid_emin s m e :
  valid_binary (S754_finite s m e) = true -> emin <= e.
Proof.
  cbn [SpecFloat.valid_binary]. unfold bounded, canonical_mantissa.
  intro H. apply andb_prop in H. destruct H as [H _].
  apply Z.eqb_eq in H. unfold fexp in H. fold emin in H. lia.
Qed.

Lemma SFadd_pos (x c : spec_float) :
  valid_binary x = true -> valid_binary c = true ->
  SFleb (S754_zero false) x = true ->
  SFpositive c ->
  SFpositive (SF64add x c).
Proof.
  intros Vx Vc Hx [(mc & ec & ->)| ->].
  - destruct x as [sx|sx| |sx mx ex]; try discriminate.
    + left. do 2 eexists. reflexivity.
    + destruct sx; [discriminate|]. right. reflexivity.
    + destruct sx; [discriminate|].
      pose proof (valid_emin _ _ _ Vx). pose proof (valid_emin _ _ _ Vc).
      unfold SF64add, SFadd. cbn [cond_Zopp Z.add binary_normalize].
      apply binary_round_pos. lia.
  - destruct x as [sx|sx| |sx mx ex]; try discriminate.
    + right; reflexivity.
    + destruct sx; [discriminate|]. right. reflexivity.
    + right. reflexivity.
Qed.

End Rounding.

(** ** The order of the specification floats *)

Section SpecOrder.

Local Open Scope Z_scope.

Lemma finite_cmp_lt (e1 e2 : Z) (m1 m2 : positive) :
  match (e1 ?= e2)%Z with
  | Lt => Lt | Gt => Gt | Eq => Pos.compare_cont Eq m1 m2
  end = Lt <->
  (e1 < e2 \/ (e1 = e2 /\ m1 < m2)%positive)%Z.
Proof.
  change (Pos.compare_cont Eq m1 m2) with (m1 ?= m2)%positive.
  destruct (Z.compare_spec e1 e2); destruct (Pos.compare_spec m1 m2);
    split; intro H'; try discriminate; try reflexivity; lia.
Qed.

Lemma finite_cmp_gt (e1 e2 : Z) (m1 m2 : positive) :
  match (e1 ?= e2)%Z with
  | Lt => Lt | Gt => Gt | Eq => Pos.compare_cont Eq m1 m2
  end = Gt <->
  (e2 < e1 \/ (e1 = e2 /\ m2 < m1)%positive)%Z.
Proof.
  change (Pos.compare_cont Eq m1 m2) with (m1 ?= m2)%positive.
  destruct (Z.compare_spec e1 e2); destruct (Pos.compare_spec m1 m2);
    split; intro H'; try discriminate; try reflexivity; lia.
Qed.

Lemma finite_cmp_eq (e1 e2 : Z) (m1 m2 : positive) :
  match (e1 ?= e2)%Z with
  | Lt => Lt | Gt => Gt | Eq => Pos.compare_cont Eq m1 m2
  end = Eq <-> (e1 = e2 /\ m1 = m2).
Proof.
  change (Pos.compare_cont Eq m1 m2) with (m1 ?= m2)%positive.
  destruct (Z.compare_spec e1 e2); destruct (Pos.compare_spec m1 m2);
    split; intro H'; try discriminate; try reflexivity; lia.
Qed.

Lemma negative_cmp_lt (e1 e2 : Z) (m1 m2 : positive) :
  match (e1 ?= e2)%Z with
  | Lt => Gt | Gt => Lt | Eq => CompOpp (Pos.compare_cont Eq m1 m2)
  end = Lt <->
  (e2 < e1 \/ (e1 = e2 /\ m2 < m1)%positive)%Z.
Proof.
  change (Pos.compare_cont Eq m1 m2) with (m1 ?= m2)%positive.
  destruct (Z.compare_spec e1 e2); destruct (Pos.compare_spec m1 m2);
    cbn [CompOpp]; split; intro H'; try discriminate; try reflexivity; lia.
Qed.

Lemma negative_cmp_gt (e1 e2 : Z) (m1 m2 : positive) :
  match (e1 ?= e2)%Z with
  | Lt => Gt | Gt => Lt | Eq => CompOpp (Pos.compare_cont Eq m1 m2)
  end = Gt <->
  (e1 < e2 \/ (e1 = e2 /\ m1 < m2)%positive)%Z.
Proof.
  change (Pos.compare_cont Eq m1 m2) with (m1 ?= m2)%positive.
  destruct (Z.compare_spec e1 e2); destruct (Pos.compare_spec m1 m2);
    cbn [CompOpp]; split; intro H'; try discriminate; try reflexivity; lia.
Qed.

Lemma negative_cmp_eq (e1 e2 : Z) (m1 m2 : positive) :
  match (e1 ?= e2)%Z with
  | Lt => Gt | Gt => Lt | Eq => CompOpp (Pos.compare_cont Eq m1 m2)
  end = Eq <-> (e1 = e2 /\ m1 = m2).
Proof.
  change (Pos.compare_cont Eq m1 m2) with (m1 ?= m2)%positive.
  destruct (Z.compare_spec e1 e2); destruct (Pos.compare_spec m1 m2);
    cbn [CompOpp]; split; intro H'; try discriminate; try reflexivity; lia.
Qed.

(** Name the outcome of each comparison of two finite floats of one sign. *)
Ltac split_finite_cmp :=
  repeat match goal with
  | |- context [match (?e1 ?= ?e2)%Z with
                | Lt => Lt | Gt => Gt | Eq => Pos.compare_cont Eq ?m1 ?m2
                end] =>
      let E := fresh "E" in
      destruct (match (e1 ?= e2)%Z with
                | Lt => Lt | Gt => Gt | Eq => Pos.compare_cont Eq m1 m2
                end) eqn:E;
      [apply finite_cmp_eq in E | apply finite_cmp_lt in E
       | apply finite_cmp_gt in E]
  | |- context [match (?e1 ?= ?e2)%Z with
                | Lt => Gt | Gt => Lt
                | Eq => CompOpp (Pos.compare_cont Eq ?m1 ?m2)
                end] =>
      let E := fresh "E" in
      destruct (match (e1 ?= e2)%Z with
                | Lt => Gt | Gt => Lt
                | Eq => CompOpp (Pos.compare_cont Eq m1 m2)
                end) eqn:E;
      [apply negative_cmp_eq in E | apply negative_cmp_lt in E
       | apply negative_cmp_gt in E]
  end.

(** [x < a], [a <= b] and [b < x] cannot hold together. *)
Lemma SF_between_absurd (x a b : spec_float) :
  SFltb x a = true -> SFleb a b = true -> SFltb b x = true -> False.
Proof.
  unfold SFltb, SFleb, SFcompare.
  destruct x as [sx|sx| |sx mx ex]; destruct a as [sa|sa| |sa ma ea];
    destruct b as [sb|sb| |sb mb eb];
    try destruct sx; try destruct sa; try destruct sb;
    try discriminate;
    split_finite_cmp; intros; try discriminate; lia.
Qed.

End SpecOrder.

(** ** From the specification of the operations to the primitive floats *)

Section PrimFacts.

Local Open Scope float_scope.

Lemma positive_ltb (x : float) : (0 <? x) = true <-> SFpositive (Prim2SF x).
Proof.
  rewrite ltb_spec. change (Prim2SF 0) with (S754_zero false).
  unfold SFpositive.
  destruct (Prim2SF x) as [s|s| |s m e]; cbn; try destruct s;
    split; intro H; try discriminate; try reflexivity;
    try (right; reflexivity); try (left; eauto);
    destruct H as [(m' & e' & H)|H]; discriminate.
Qed.

Lemma nonneg_leb (x : float) :
  (0 <=? x) = true -> SFleb (S754_zero false) (Prim2SF x) = true.
Proof. now rewrite leb_spec. Qed.

(** A non-negative float plus a positive one is positive. *)
Lemma add_pos (x c : float) :
  (0 <=? x) = true -> (0 <? c) = true -> (0 <? x + c) = true.
Proof.
  intros Hx Hc. apply positive_ltb. rewrite add_spec.
  apply SFadd_pos; try apply Prim2SF_valid.
  - now apply nonneg_leb.
  - now apply positive_ltb.
Qed.

Lemma pos_neq_zero (y : float) : (0 <? y) = true -> (y =? 0) = false.
Proof.
  intro H. apply positive_ltb in H. rewrite eqb_spec.
  change (Prim2SF 0) with (S754_zero false).
  destruct H as [(m & e & ->)| ->]; reflexivity.
Qed.

Lemma ltb_neq (x y : float) : (x <? y) = true -> (x =? y) = false.
Proof.
  rewrite ltb_spec, eqb_spec. unfold SFltb, SFeqb.
  destruct (SFcompare (Prim2SF x) (Prim2SF y)) as [[]|]; congruence.
Qed.

Lemma eqb_zero (x : float) :
  (x =? 0) = true -> exists s, Prim2SF x = S754_zero s.
Proof.
  rewrite eqb_spec. change (Prim2SF 0) with (S754_zero false).
  destruct (Prim2SF x) as [s|s| |s m e]; cbn; try destruct s;
    intro H; try discriminate; eauto.
Qed.

Lemma zero_leb (x : float) : (x =? 0) = true -> (0 <=? x) = true.
Proof.
  intro H. destruct (eqb_zero x H) as [s E].
  rewrite leb_spec, E. reflexivity.
Qed.



End PrimFacts.

(** * The pipeline over binary64 *)

Section Binary64Pipeline.

Local Open Scope float_scope.
Import B64.

Lemma one_pos : (0 <? 1) = true.
Proof. reflexivity. Qed.

Lemma epsilon_float_pos : (0 <? 1e-6) = true.
Proof. reflexivity. Qed.

Lemma ltb_leb (x y : float) : (x <? y) = true -> (x <=? y) = true.
Proof.
  rewrite ltb_spec, leb_spec. unfold SFltb, SFleb.
  destruct (SFcompare (Prim2SF x) (Prim2SF y)) as [[]|]; congruence.
Qed.

Lemma add_zero_r (x : float) : (0 <? x) = true -> x + 0 = x.
Proof.
  intro H. apply positive_ltb in H. apply Prim2SF_inj.
  rewrite add_spec. change (Prim2SF 0) with (S754_zero false).
  destruct H as [(m & e & ->)| ->]; reflexivity.
Qed.

Lemma valid_fields (d : UserInput) :
  valid d ->
  (0 <=? hint_count d) = true /\ (0 <=? bottom_hint d) = true /\
  (0 <=? attempt_count d) = true /\ (0 <=? ms_first_response d) = true /\
  (0 <=? duration d) = true /\
  ((0 <=? avg_conf_frustrated d) = true /\
   (avg_conf_frustrated d <=? 1) = true) /\
  ((0 <=? avg_conf_confused d) = true /\
   (avg_conf_confused d <=? 1) = true) /\
  ((0 <=? avg_conf_concentrating d) = true /\
   (avg_conf_concentrating d <=? 1) = true) /\
  ((0 <=? avg_conf_bored d) = true /\ (avg_conf_bored d <=? 1) = true).
Proof.
  unfold valid, validate, ge, le. intro H.
  repeat match goal with
  | H : _ && _ = true |- _ => apply andb_prop in H; destruct H
  end.
  repeat split; assumption.
Qed.

Lemma truediv_pos (x y : float) :
  (0 <? y) = true -> truediv x y = Ok (x / y).
Proof.
  intro H. unfold truediv. now rewrite (pos_neq_zero y H).
Qed.

Lemma hint_dependency_float (d : UserInput) :
  (0 <=? attempt_count d) = true ->
  hint_dependency d = Ok (hint_count d / (attempt_count d + 1)).
Proof.
  intro H. apply truediv_pos. now apply add_pos.
Qed.

Lemma response_speed_float (d : UserInput) :
  (0 <=? ms_first_response d) = true ->
  response_speed d = Ok (1 / (ms_first_response d + 1)).
Proof.
  intro H. apply truediv_pos. now apply add_pos.
Qed.

Lemma efficiency_indicator_float (d : UserInput) :
  (0 <=? attempt_count d) = true ->
  efficiency_indicator d = Ok (action_count d / (attempt_count d + 1)).
Proof.
  intro H. apply truediv_pos. now apply add_pos.
Qed.

Lemma engagement_ratio_float (d : UserInput) :
  (0 <=? avg_conf_bored d) = true ->
  engagement_ratio d =
    Ok (avg_conf_concentrating d / (avg_conf_bored d + 1e-6)).
Proof.
  intro H. apply truediv_pos. now apply add_pos.
Qed.

(** The decision list over the floats the classifier reads. *)
Lemma learner_profile_float (d : UserInput) :
  (0 <=? attempt_count d) = true ->
  exists profile : string,
    generate_learner_profile d = Ok profile /\
    (rule1 d -> profile = "Fast but Careless 🐇"%string) /\
    (~ rule1 d -> rule2 d -> profile = "Slow and Careful 🐢"%string) /\
    (~ rule1 d -> ~ rule2 d -> rule3 d ->
     profile = "Confused Learner 🤔"%string) /\
    (~ rule1 d -> ~ rule2 d -> ~ rule3 d -> rule4 d ->
     profile = "Focused Performer 🎯"%string) /\
    (~ rule1 d -> ~ rule2 d -> ~ rule3 d -> ~ rule4 d ->
     profile = "General Learner"%string).
Proof.
  intro Ha. unfold generate_learner_profile. cbv zeta.
  rewrite (efficiency_indicator_float d Ha), (hint_dependency_float d Ha).
  cbn [bind]. unfold rule1, rule2, rule3, rule4, gtb.
  repeat match goal with
  | |- context [if ?b then _ else _] =>
      let E := fresh "E" in
      destruct b eqn:E;
      [ repeat (apply andb_prop in E; destruct E as [E ?])
      | apply andb_false_iff in E; rewrite !andb_false_iff in E ]
  end;
  (eexists; split; [reflexivity|]);
  repeat split; intros; trivial; exfalso;
  repeat match goal with
  | H : ~ (_ /\ _) |- _ => apply H; clear H; repeat split; assumption
  | H : _ /\ _ |- _ => destruct H
  end;
  intuition congruence.
Qed.

Lemma behaviors_dict_float (d : UserInput) :
  valid d ->
  behaviors_dict d =
    Ok (mkBehaviors
          (classify_engagement
             (avg_conf_concentrating d / (avg_conf_bored d + 1e-6)))
          (classify_hint_dependency
             (hint_count d / (attempt_count d + 1)))
          (classify_efficiency (action_count d / (attempt_count d + 1)))
          (classify_response_speed (1 / (ms_first_response d + 1)))
          (classify_confidence (confidence_balance d))
          (classify_persistence (attempt_count d))
          (classify_activity (action_count d))).
Proof.
  intro V. apply valid_fields in V.
  destruct V as (Hh & Hb & Ha & Hm & Hd & Hf & Hc & Hk & Hbo & _).
  unfold behaviors_dict.
  rewrite (engagement_ratio_float d Hbo), (hint_dependency_float d Ha),
    (efficiency_indicator_float d Ha), (response_speed_float d Hm).
  reflexivity.
Qed.

Lemma metrics_dict_float (d : UserInput) :
  valid d -> metrics_dict d = Ok (metrics_of d).
Proof.
  intro V. apply valid_fields in V.
  destruct V as (Hh & Hb & Ha & Hm & Hd & Hf & Hc & Hk & Hbo & _).
  unfold metrics_dict. cbv zeta.
  rewrite (engagement_ratio_float d Hbo), (hint_dependency_float d Ha),
    (efficiency_indicator_float d Ha), (response_speed_float d Hm).
  reflexivity.
Qed.


Lemma ladder_float x hi mid top middle bottom :
  ladder x hi mid top middle bottom
    (if gtb x hi then top else if gtb x mid then middle else bottom).
Proof.
  unfold ladder, gtb.
  destruct (hi <? x); destruct (mid <? x);
    repeat split; intros; trivial; discriminate.
Qed.

Lemma classify_activity_float x : activity_ladder x (classify_activity x).
Proof.
  unfold activity_ladder, classify_activity.
  destruct (x =? 0); destruct (x =? 1);
    repeat split; intros; trivial; discriminate.
Qed.

Lemma behaviors_float (d : UserInput) :
  valid d ->
  exists b, behaviors_dict d = Ok b /\ behaviors_of d b.
Proof.
  intro V. eexists. split; [now apply behaviors_dict_float|].
  unfold behaviors_of; cbn [engagement tag_hint_dependency efficiency
    tag_response_speed tag_confidence_balance persistence overall_activity].
  repeat split; try apply ladder_float; apply classify_activity_float.
Qed.

(** The outcome of the analysis handler on a valid request. *)
Lemma analyze_float (d : UserInput) :
  valid d ->
  exists profile b,
    generate_learner_profile d = Ok profile /\
    behaviors_dict d = Ok b /\
    (existsb out_of_range (metrics_floats (metrics_of d)) = false ->
     analyze_student_behavior d =
       JSONResponse 200 (mkAnalysisResponse profile b (metrics_of d))) /\
    (existsb out_of_range (metrics_floats (metrics_of d)) = true ->
     analyze_student_behavior d = Unhandled JSON_ValueError).
Proof.
  intro V. pose proof (valid_fields d V) as F.
  destruct (learner_profile_float d) as (p & EP & _); [tauto|].
  destruct (behaviors_float d V) as (b & EB & _).
  exists p, b. split; [exact EP|]. split; [exact EB|].
  unfold analyze_student_behavior.
  rewrite EP, EB, (metrics_dict_float d V). cbn [bind].
  unfold json_response.
  split; intro E; rewrite E; reflexivity.
Qed.

End Binary64Pipeline.

Section Binary64Claims.

Local Open Scope float_scope.
Import B64.



(** C3: a valid request that satisfies rule 1 and rule 3 at once is given
    rule 1's label, "Fast but Careless" (spelled with its rabbit emoji in
    the code), never rule 3's. *)
Theorem careless_rule_has_priority (d : UserInput) :
  valid d -> rule1 d -> rule3 d ->
  generate_learner_profile d = Ok "Fast but Careless 🐇"%string /\
  generate_learner_profile d <> Ok "Confused Learner 🤔"%string.
Proof.
  intros V R1 _. apply valid_fields in V.
  destruct (learner_profile_float d) as (p & E & C1 & _); [tauto|].
  rewrite E, (C1 R1). split; [reflexivity | discriminate].
Qed.

Lemma careless_rule_has_priority_witness :
  valid careless_confused_request /\
  rule1 careless_confused_request /\
  rule3 careless_confused_request /\
  generate_learner_profile careless_confused_request =
    Ok "Fast but Careless 🐇"%string.
Proof.
  assert (valid careless_confused_request) as V by reflexivity.
  assert (rule1 careless_confused_request) as R1
    by (repeat split; reflexivity).
  assert (rule3 careless_confused_request) as R3
    by (repeat split; reflexivity).
  split; [exact V|]. split; [exact R1|]. split; [exact R3|].
  exact (proj1 (careless_rule_has_priority careless_confused_request V R1 R3)).
Defined.








(** C7 (as amended): for every valid request whose six derived metric
    values are all finite, the analysis handler returns a response made of
    the learner profile, the seven behaviour tags and the six metric
    values; when one of the six is infinite or nan, building the response
    raises ValueError, which escapes the handler. *)
Theorem analyze_succeeds_when_finite (d : UserInput) :
  valid d ->
  exists profile b,
    generate_learner_profile d = Ok profile /\
    behaviors_dict d = Ok b /\
    (forallb is_finite
       [action_count d;
        hint_count d / (attempt_count d + 1);
        1 / (ms_first_response d + 1);
        confidence_balance d;
        avg_conf_concentrating d / (avg_conf_bored d + 1e-6);
        action_count d / (attempt_count d + 1)] = true ->
     analyze_student_behavior d =
       JSONResponse 200
         {| learner_profile := profile;
            behaviors := b;
            computed_metrics :=
              {| m_action_count := attempt_count d + hint_count d;
                 m_hint_dependency := hint_count d / (attempt_count d + 1);
                 m_response_speed := 1 / (ms_first_response d + 1);
                 m_confidence_balance :=
                   avg_conf_concentrating d - avg_conf_frustrated d
                   - avg_conf_confused d;
                 m_engagement_ratio :=
                   avg_conf_concentrating d / (avg_conf_bored d + 1e-6);
                 m_efficiency_indicator :=
                   (attempt_count d + hint_count d) / (attempt_count d + 1)
              |} |}) /\
    (forallb is_finite
       [action_count d;
        hint_count d / (attempt_count d + 1);
        1 / (ms_first_response d + 1);
        confidence_balance d;
        avg_conf_concentrating d / (avg_conf_bored d + 1e-6);
        action_count d / (attempt_count d + 1)] = false ->
     analyze_student_behavior d = Unhandled JSON_ValueError).
Proof.
  intro V.
  destruct (analyze_float d V) as (p & b & EP & EB & Fin & Inf).
  exists p, b. split; [exact EP|]. split; [exact EB|].
  change [action_count d; hint_count d / (attempt_count d + 1);
          1 / (ms_first_response d + 1); confidence_balance d;
          avg_conf_concentrating d / (avg_conf_bored d + 1e-6);
          action_count d / (attempt_count d + 1)]
    with (metrics_floats (metrics_of d)).
  assert (forall l, forallb is_finite l = negb (existsb out_of_range l)) as FE.
  { induction l as [|x l IH]; [reflexivity|].
    cbn [forallb existsb]. rewrite IH. unfold is_finite.
    now rewrite negb_orb. }
  rewrite FE. split; intro H.
  - apply Fin. now apply negb_true_iff.
  - apply Inf. now apply negb_false_iff.
Qed.

Lemma analyze_succeeds_when_finite_witness :
  valid careless_request /\
  exists r, analyze_student_behavior careless_request = JSONResponse 200 r /\
            learner_profile r = "Fast but Careless 🐇"%string.
Proof.
  assert (valid careless_request) as V by reflexivity.
  split; [exact V|].
  destruct (analyze_succeeds_when_finite careless_request V)
    as (p & b & EP & _ & EA & _).
  eexists. split; [apply EA; reflexivity|].
  cbn [learner_profile].
  assert (Ok p = Ok "Fast but Careless 🐇"%string) as E
    by (rewrite <- EP; reflexivity).
  now injection E.
Defined.

(** C7 fails as worded: on a valid request with attempt_count and
    hint_count both 1e308 the analysis handler returns no response; the
    ValueError raised while the response is built escapes it. *)
Lemma analyze_fails_on_overflow :
  valid huge_request /\
  analyze_student_behavior huge_request = Unhandled JSON_ValueError /\
  forall r, analyze_student_behavior huge_request <> JSONResponse 200 r.
Proof.
  split; [reflexivity|].
  assert (analyze_student_behavior huge_request = Unhandled JSON_ValueError)
    as E by reflexivity.
  split; [exact E|]. intros r. rewrite E. discriminate.
Qed.

(** C10: an action count strictly between 0 and 1 is reachable from a valid
    request (attempt_count set to it, no hints), and every such count is
    tagged "Active", not "None" or "Minimal", by the classifier and in the
    [behaviors] dict of the handlers. *)
Theorem fractional_count_is_active (actions : float) :
  (0 <? actions) = true -> (actions <? 1) = true ->
  (exists d, valid d /\ attempt_count d = actions /\ hint_count d = 0 /\
             action_count d = actions) /\
  classify_activity actions = "Active"%string /\
  classify_activity actions <> "None"%string /\
  classify_activity actions <> "Minimal"%string /\
  forall d, valid d -> action_count d = actions ->
    exists b, behaviors_dict d = Ok b /\
              overall_activity b = "Active"%string.
Proof.
  intros H0 H1.
  assert (classify_activity actions = "Active"%string) as A.
  { unfold classify_activity.
    now rewrite (pos_neq_zero actions H0), (ltb_neq actions 1 H1). }
  split.
  - exists (mkUserInput 0 0 actions 0 0 0 0 0 0).
    split; [|repeat split; unfold action_count; cbn; now apply add_zero_r].
    unfold valid, validate, ge, le; cbn [hint_count bottom_hint attempt_count
      ms_first_response duration avg_conf_frustrated avg_conf_confused
      avg_conf_concentrating avg_conf_bored].
    rewrite (ltb_leb 0 actions H0). reflexivity.
  - rewrite A. split; [reflexivity|]. split; [discriminate|].
    split; [discriminate|].
    intros d V E. eexists. split; [now apply behaviors_dict_float|].
    cbn [overall_activity]. now rewrite E.
Qed.

Lemma fractional_count_is_active_witness :
  (0 <? 0.5) = true /\ (0.5 <? 1) = true /\
  valid half_attempt_request /\
  action_count half_attempt_request = 0.5 /\
  classify_activity 0.5 = "Active"%string /\
  exists b, behaviors_dict half_attempt_request = Ok b /\
            overall_activity b = "Active"%string.
Proof.
  assert ((0 <? 0.5) = true) as H0 by reflexivity.
  assert ((0.5 <? 1) = true) as H1 by reflexivity.
  assert (valid half_attempt_request) as V by reflexivity.
  assert (action_count half_attempt_request = 0.5) as E by reflexivity.
  split; [exact H0|]. split; [exact H1|]. split; [exact V|].
  split; [exact E|].
  destruct (fractional_count_is_active 0.5 H0 H1) as (_ & A & _ & _ & R).
  split; [exact A|]. exact (R half_attempt_request V E).
Defined.

End Binary64Claims.

Section Binary64Extras.

Local Open Scope float_scope.
Import B64.

Lemma between_absurd (x a b : float) :
  (x <? a) = true -> (a <=? b) = true -> (b <? x) = true -> False.
Proof.
  rewrite !ltb_spec, leb_spec. apply SF_between_absurd.
Qed.

Lemma float_rules_exclusive (d : UserInput) :
  ~ (rule1 d /\ rule2 d) /\ ~ (rule1 d /\ rule4 d) /\
  ~ (rule2 d /\ rule3 d) /\ ~ (rule3 d /\ rule4 d).
Proof.
  unfold rule1, rule2, rule3, rule4.
  repeat split; intro H; decompose [and] H; clear H.
  - now apply (between_absurd (duration d) 1800 1800).
  - now apply (between_absurd (avg_conf_concentrating d) 0.5 0.6).
  - now apply (between_absurd (hint_count d) 5 6).
  - now apply (between_absurd (confidence_balance d) 0.4 0.6).
Qed.

Lemma float_rule_dec (d : UserInput) :
  (rule1 d \/ ~ rule1 d) /\ (rule2 d \/ ~ rule2 d) /\
  (rule3 d \/ ~ rule3 d) /\ (rule4 d \/ ~ rule4 d).
Proof.
  unfold rule1, rule2, rule3, rule4.
  repeat split;
    repeat match goal with
    | |- context [?b = true] =>
        match b with
        | true => fail 1
        | false => fail 1
        | _ => destruct b
        end
    end; tauto || (right; intuition discriminate).
Qed.

Ltac float_label_iffs :=
  repeat match goal with |- (_ <-> _) /\ _ => split end;
  split; intros; try discriminate; tauto.

(** X7: on a valid request the returned label tells which rule holds, each
    rule read on the feature values the code computes: "Fast but Careless"
    iff rule 1; "Slow and Careful" iff rule 2; "Confused Learner" iff rule 3
    without rule 1; "Focused Performer" iff rule 4 without rule 2; "General
    Learner" iff no rule. *)
Theorem label_tells_rule (d : UserInput) :
  valid d ->
  exists profile : string,
    generate_learner_profile d = Ok profile /\
    (profile = "Fast but Careless 🐇"%string <-> rule1 d) /\
    (profile = "Slow and Careful 🐢"%string <-> rule2 d) /\
    (profile = "Confused Learner 🤔"%string <-> rule3 d /\ ~ rule1 d) /\
    (profile = "Focused Performer 🎯"%string <-> rule4 d /\ ~ rule2 d) /\
    (profile = "General Learner"%string <->
       ~ rule1 d /\ ~ rule2 d /\ ~ rule3 d /\ ~ rule4 d).
Proof.
  intro V. apply valid_fields in V.
  destruct (learner_profile_float d)
    as (p & E & C1 & C2 & C3 & C4 & C5); [tauto|].
  exists p. split; [exact E|].
  destruct (float_rules_exclusive d) as (X12 & X14 & X23 & X34).
  destruct (float_rule_dec d) as (D1 & D2 & D3 & D4).
  destruct D1 as [R1|N1]; [rewrite (C1 R1); float_label_iffs|].
  destruct D2 as [R2|N2]; [rewrite (C2 N1 R2); float_label_iffs|].
  destruct D3 as [R3|N3]; [rewrite (C3 N1 N2 R3); float_label_iffs|].
  destruct D4 as [R4|N4]; [rewrite (C4 N1 N2 N3 R4); float_label_iffs|].
  rewrite (C5 N1 N2 N3 N4). float_label_iffs.
Qed.

Lemma label_tells_rule_witness :
  valid focused_request /\
  rule4 focused_request /\ ~ rule2 focused_request /\
  generate_learner_profile focused_request =
    Ok "Focused Performer 🎯"%string.
Proof.
  assert (valid focused_request) as V by reflexivity.
  assert (rule4 focused_request) as R4 by (repeat split; reflexivity).
  assert (~ rule2 focused_request) as N2
    by (intros (H & _); vm_compute in H; discriminate).
  split; [exact V|]. split; [exact R4|]. split; [exact N2|].
  destruct (label_tells_rule focused_request V) as (p & E & _ & _ & _ & I4 & _).
  rewrite E. f_equal. apply I4. split; assumption.
Defined.



(** X12: for a valid request, whenever /analyze and /predict both answer
    200, the prediction response carries the same learner profile, tags and
    six metrics as the analysis response, and those metrics are the derived
    columns of the row the model was given. *)
Theorem handlers_agree (d : UserInput) :
  valid d ->
  exists row,
    input_row d = Ok row /\
    forall best_model ra rp,
      analyze_student_behavior d = JSONResponse 200 ra ->
      predicted_correctness best_model d = JSONResponse 200 rp ->
      p_learner_profile rp = learner_profile ra /\
      p_behaviors rp = behaviors ra /\
      raw_metrics rp = computed_metrics ra /\
      m_action_count (raw_metrics rp) = col_action_count row /\
      m_hint_dependency (raw_metrics rp) = col_hint_dependency row /\
      m_response_speed (raw_metrics rp) = col_response_speed row /\
      m_confidence_balance (raw_metrics rp) = col_confidence_balance row /\
      m_engagement_ratio (raw_metrics rp) = col_engagement_ratio row /\
      m_efficiency_indicator (raw_metrics rp) = col_efficiency_indicator row.
Proof.
  intro V. pose proof (valid_fields d V) as F.
  destruct F as (Hh & Hb & Ha & Hm & Hd & Hf & Hc & Hk & Hbo & _).
  destruct (learner_profile_float d Ha) as (p & EP & _).
  destruct (behaviors_float d V) as (b & EB & _).
  assert (input_row d =
          Ok (mkInputRow (hint_count d) (bottom_hint d) (attempt_count d)
                (ms_first_response d) (duration d) (avg_conf_frustrated d)
                (avg_conf_confused d) (avg_conf_concentrating d)
                (avg_conf_bored d) (action_count d)
                (hint_count d / (attempt_count d + 1))
                (1 / (ms_first_response d + 1)) (confidence_balance d)
                (avg_conf_concentrating d / (avg_conf_bored d + 1e-6))
                (action_count d / (attempt_count d + 1)))) as ER.
  { unfold input_row. cbv zeta.
    rewrite (engagement_ratio_float d Hbo), (hint_dependency_float d Ha),
      (efficiency_indicator_float d Ha), (response_speed_float d Hm).
    reflexivity. }
  eexists. split; [exact ER|].
  intros bm ra rp.
  unfold analyze_student_behavior, predicted_correctness, predict_body.
  rewrite ER, EP, EB, (metrics_dict_float d V). cbn [bind].
  unfold json_response.
  destruct (existsb out_of_range (metrics_floats (metrics_of d)));
    [discriminate|].
  intros [= <-].
  destruct bm as [m|]; [|discriminate].
  destruct (m _) as [score|e]; cbn [bind]; [|discriminate].
  destruct (categorize_student_performance score) as [[[n name] descr] icon].
  cbn [bind].
  destruct (existsb out_of_range (score :: metrics_floats (metrics_of d)));
    [discriminate|].
  intros [= <-]. repeat split.
Qed.

Lemma handlers_agree_witness :
  valid careless_request /\
  exists rp ra,
    predicted_correctness (Some (fun _ => Ok 0.5)) careless_request =
      JSONResponse 200 rp /\
    analyze_student_behavior careless_request = JSONResponse 200 ra /\
    p_behaviors rp = behaviors ra.
Proof.
  assert (valid careless_request) as V by reflexivity.
  split; [exact V|].
  destruct (handlers_agree careless_request V) as (row & _ & H).
  do 2 eexists. split; [reflexivity|]. split; [reflexivity|].
  exact (proj1 (proj2 (H (Some (fun _ => Ok 0.5)) _ _ eq_refl eq_refl))).
Defined.

(** Run the property reads of a handler, splitting on whether each of the
    three denominators is zero. *)
Ltac split_float_denominators d :=
  cbv zeta;
  unfold efficiency_indicator, hint_dependency, response_speed,
    engagement_ratio, truediv;
  destruct (attempt_count d + 1 =? 0);
  destruct (ms_first_response d + 1 =? 0);
  destruct (avg_conf_bored d + 1e-6 =? 0);
  cbn [bind orb].

Ltac split_float_rules :=
  repeat match goal with
  | |- context [if ?b then Ok _ else _] => destruct b; cbn [bind]
  end.

(** X13: on any record, validated or not, the outcome of the handlers is
    decided by the three denominators and by the finiteness of the six
    metrics: a denominator equal to zero makes both handlers let
    ZeroDivisionError escape, /predict whatever the model is; otherwise
    /predict lets nothing escape, and /analyze answers 200 when the six
    metrics are finite and lets ValueError escape when they are not. *)
Theorem handler_outcomes (d : UserInput) :
  ((attempt_count d + 1 =? 0) || (ms_first_response d + 1 =? 0)
   || (avg_conf_bored d + 1e-6 =? 0) = true ->
   analyze_student_behavior d = Unhandled ZeroDivisionError /\
   forall best_model,
     predicted_correctness best_model d = Unhandled ZeroDivisionError) /\
  ((attempt_count d + 1 =? 0) || (ms_first_response d + 1 =? 0)
   || (avg_conf_bored d + 1e-6 =? 0) = false ->
   (existsb out_of_range (metrics_floats (metrics_of d)) = false ->
    exists r, analyze_student_behavior d = JSONResponse 200 r) /\
   (existsb out_of_range (metrics_floats (metrics_of d)) = true ->
    analyze_student_behavior d = Unhandled JSON_ValueError) /\
   forall best_model e, predicted_correctness best_model d <> Unhandled e).
Proof.
  unfold analyze_student_behavior, predicted_correctness, input_row,
    generate_learner_profile, behaviors_dict, metrics_dict.
  split_float_denominators d; (split; intro H; [try discriminate|]);
    try discriminate.
  - split; [split_float_rules; reflexivity | reflexivity].
  - split; [split_float_rules; reflexivity | reflexivity].
  - split; [split_float_rules; reflexivity | reflexivity].
  - split; [split_float_rules; reflexivity | reflexivity].
  - split; [split_float_rules; reflexivity | reflexivity].
  - split; [split_float_rules; reflexivity | reflexivity].
  - split; [split_float_rules; reflexivity | reflexivity].
  - unfold json_response, metrics_of, action_count.
    split; [|split].
    + intro E. split_float_rules; cbn [metrics_floats] in *;
        rewrite E; eexists; reflexivity.
    + intro E. split_float_rules; cbn [metrics_floats] in *;
        rewrite E; reflexivity.
    + intros bm e. destruct bm as [m|]; [|discriminate].
      match goal with
      | |- context [predict_body m ?row d] => destruct (predict_body m row d)
      end; discriminate.
Qed.

End Binary64Extras.
